(** * The BentoML item store ([bentoml/_internal/store.py])

    A shallow embedding of [Store] (list / get / register / delete) over an
    in-memory model of the hierarchical filesystem the store is built on,
    and the properties of the store's tag resolution, latest-pointer
    maintenance and error behaviour. *)

From Stdlib Require Import String Ascii ZArith List Sorted Permutation.
From stdpp Require Import gmap strings list fin_maps sorting.

Open Scope string_scope.
Open Scope Z_scope.

#[local] Set Warnings "-register-all".

(** ** Exceptions *)

(** Backend paths are sequences of components: ["demo"; "1"] is [demo/1],
    [[]] is the root [/].  The backend splits a path at its separators and
    resolves what is between them, so a component is never empty: [demo/]
    is the directory [demo]. *)
Abbreviation fspath := (list string).

(** The payload of the f-string messages the store raises, kept structured. *)
Inductive message :=
| NoItemsWithName (type_name name : string)
    (* no {type}s with name '{name}' exist in BentoML store *)
| ItemNotFound (type_name requested : string)
    (* {type} '{tag}' is not found in BentoML store *)
| MultipleVersionsMatched (version : option string) (vers : list string)
    (* multiple versions matched by {version}: {vers} *)
| ItemAlreadyExists (tag : string).
    (* Item '{tag}' already exists in the store *)

Inductive exn :=
(* fs.errors *)
| ResourceNotFound (p : fspath)
| DirectoryExpected (p : fspath)
| FileExpected (p : fspath)
| DirectoryExists (p : fspath)
(* bentoml.exceptions *)
| NotFound (msg : message)
| BentoMLException (msg : message)
(* builtins *)
| TypeError
| ValueError
| RecursionError
| IndexError
| StopIteration
(* raised inside the caller's [with] block *)
| CallerError (what : string)
| Cancelled.

Inductive result (A : Type) :=
| Ok (a : A)
| Raise (e : exn).
Arguments Ok {A} a.
Arguments Raise {A} e.

Definition rbind {A B} (r : result A) (k : A → result B) : result B :=
  match r with
  | Ok a => k a
  | Raise e => Raise e
  end.

Notation "'try!' x := r 'in' k" := (rbind r (λ x, k))
  (at level 10, x binder, r at level 100, k at level 200).

Fixpoint mapM {A B} (f : A → result B) (l : list A) : result (list B) :=
  match l with
  | [] => Ok []
  | a :: l' => try! b := f a in try! bs := mapM f l' in Ok (b :: bs)
  end.

(** ** Python's [sorted]

    [sorted] is stable and compares with [<] only; a stable insertion sort
    returns the same list. *)
Section Sorted.
Context {A : Type} (lt : A → A → bool).

Fixpoint insert_sorted (x : A) (l : list A) : list A :=
  match l with
  | [] => [x]
  | y :: l' => if lt y x then y :: insert_sorted x l' else x :: y :: l'
  end.

Fixpoint sorted (l : list A) : list A :=
  match l with
  | [] => []
  | x :: l' => insert_sorted x (sorted l')
  end.
End Sorted.

(** ** The filesystem backend (PyFilesystem's [FS])

    A resource is a text file or a directory of named resources. *)
Inductive node :=
| File (text : string)
| Dir (entries : gmap string node).

Module FS.

(** The resource at a path, component by component.  The store hands the
    backend the paths [Tag.path] and [Tag.latest_path] build and the bare
    name; [Tag.path] leaves an empty version out, as the backend would. *)
Fixpoint lookup (fs : node) (p : fspath) : option node :=
  match p with
  | [] => Some fs
  | c :: p' =>
      match fs with
      | Dir m => match m !! c with Some n => lookup n p' | None => None end
      | File _ => None
      end
  end.

Definition exists_ (fs : node) (p : fspath) : bool :=
  match lookup fs p with Some _ => true | None => false end.

Definition isdir (fs : node) (p : fspath) : bool :=
  match lookup fs p with Some (Dir _) => true | _ => false end.

Definition isfile (fs : node) (p : fspath) : bool :=
  match lookup fs p with Some (File _) => true | _ => false end.

Definition is_dir (n : node) : bool :=
  match n with Dir _ => true | File _ => false end.

(** [scandir]: the entries of a directory with their [is_dir] flag. *)
Definition scandir (fs : node) (p : fspath) : result (list (string * bool)) :=
  match lookup fs p with
  | None => Raise (ResourceNotFound p)
  | Some (File _) => Raise (DirectoryExpected p)
  | Some (Dir m) => Ok (prod_map id is_dir <$> map_to_list m)
  end.

Definition listdir (fs : node) (p : fspath) : result (list string) :=
  try! infos := scandir fs p in Ok (infos.*1).

Definition readtext (fs : node) (p : fspath) : result string :=
  match lookup fs p with
  | None => Raise (ResourceNotFound p)
  | Some (Dir _) => Raise (FileExpected p)
  | Some (File s) => Ok s
  end.

(** [opendir]: the sub-filesystem rooted at a directory. *)
Definition opendir (fs : node) (p : fspath) : result node :=
  match lookup fs p with
  | None => Raise (ResourceNotFound p)
  | Some (File _) => Raise (DirectoryExpected p)
  | Some (Dir m) => Ok (Dir m)
  end.

(** A chain of fresh, empty directories [c1/c2/.../]. *)
Fixpoint fresh (p : fspath) : node :=
  match p with
  | [] => Dir ∅
  | c :: p' => Dir {[ c := fresh p' ]}
  end.

(** [makedirs(path)] with [recreate=False]: create the directory and every
    missing ancestor. *)
Fixpoint makedirs_from (full : fspath) (fs : node) (p : fspath) : result node :=
  match fs with
  | File _ => Raise (DirectoryExpected full)
  | Dir m =>
      match p with
      | [] => Raise (DirectoryExists full)
      | c :: p' =>
          match m !! c with
          | None => Ok (Dir (<[c := fresh p']> m))
          | Some n => try! n' := makedirs_from full n p' in Ok (Dir (<[c := n']> m))
          end
      end
  end.

Definition makedirs (fs : node) (p : fspath) : result node :=
  makedirs_from p fs p.

(** [removetree(path)]: remove a directory and everything below it. *)
Fixpoint removetree_from (full : fspath) (fs : node) (p : fspath) : result node :=
  match fs with
  | File _ =>
      match p with
      | [] => Raise (DirectoryExpected full)
      | _ => Raise (ResourceNotFound full)
      end
  | Dir m =>
      match p with
      | [] => Ok (Dir ∅)
      | [c] =>
          match m !! c with
          | None => Raise (ResourceNotFound full)
          | Some (File _) => Raise (DirectoryExpected full)
          | Some (Dir _) => Ok (Dir (delete c m))
          end
      | c :: p' =>
          match m !! c with
          | None => Raise (ResourceNotFound full)
          | Some n => try! n' := removetree_from full n p' in Ok (Dir (<[c := n']> m))
          end
      end
  end.

Definition removetree (fs : node) (p : fspath) : result node :=
  removetree_from p fs p.

(** [writetext(path, text)], also [open(path, "w")] followed by a write:
    create or overwrite a file whose parent directory exists. *)
Fixpoint writetext_from (full : fspath) (fs : node) (p : fspath) (s : string) : result node :=
  match p with
  | [] =>
      match fs with
      | Dir _ => Raise (FileExpected full)
      | File _ => Ok (File s)
      end
  | [c] =>
      match fs with
      | File _ => Raise (ResourceNotFound full)
      | Dir m =>
          match m !! c with
          | Some (Dir _) => Raise (FileExpected full)
          | _ => Ok (Dir (<[c := File s]> m))
          end
      end
  | c :: p' =>
      match fs with
      | File _ => Raise (ResourceNotFound full)
      | Dir m =>
          match m !! c with
          | None => Raise (ResourceNotFound full)
          | Some n => try! n' := writetext_from full n p' s in Ok (Dir (<[c := n']> m))
          end
      end
  end.

Definition writetext (fs : node) (p : fspath) (s : string) : result node :=
  writetext_from p fs p s.

(** Replace the contents of the directory at [p]; used for what the caller
    of [register] does inside the directory it was handed. *)
Fixpoint set_entries (fs : node) (p : fspath) (new : gmap string node) : node :=
  match p with
  | [] => Dir new
  | c :: p' =>
      match fs with
      | File _ => fs
      | Dir m =>
          match m !! c with
          | None => fs
          | Some n => Dir (<[c := set_entries n p' new]> m)
          end
      end
  end.

Fixpoint split_last (p : fspath) : option (fspath * string) :=
  match p with
  | [] => None
  | [c] => Some ([], c)
  | c :: p' =>
      match split_last p' with
      | Some (d, l) => Some (c :: d, l)
      | None => None
      end
  end.

(** [glob(f"{path}*/")]: the names of the directories next to [path] whose
    name starts with the last component of [path].  The trailing slash of
    the pattern keeps directories only. *)
Definition glob (fs : node) (p : fspath) : list string :=
  match split_last p with
  | None => []
  | Some (parent, stem) =>
      match lookup fs parent with
      | Some (Dir m) =>
          (filter (λ e, String.prefix stem e.1 && is_dir e.2 = true)
                  (map_to_list m)).*1
      | _ => []
      end
  end.

End FS.

(** ** Tags ([bentoml/_internal/types.py]) *)
Module Tag.

Record t := mk { name : string; version : option string }.

(** What a caller may pass where the store takes [Union[Tag, str]]. *)
Inductive taglike :=
| Str (s : string)
| Obj (tag : t).

(** Modelled from the spec: [Tag.from_str] is not part of the store
    module.  "accepts "name", "name:version" ...; splits on the first
    separator". *)
Fixpoint split_colon (s : string) : string * option string :=
  match s with
  | EmptyString => (EmptyString, None)
  | String c s' =>
      if Ascii.eqb c ":"%char then (EmptyString, Some s')
      else let '(n, v) := split_colon s' in (String c n, v)
  end.

(** Modelled from the spec: [Tag.from_taglike] is not part of the store
    module.  An already-parsed tag is returned as it is, a string is
    split; "No error paths beyond malformed input (empty name)". *)
Definition from_taglike (x : taglike) : result t :=
  match x with
  | Obj tag => Ok tag
  | Str s =>
      let '(n, v) := split_colon s in
      if String.eqb n "" then Raise ValueError else Ok (mk n v)
  end.

(** Modelled from the spec: [Tag.path] is not part of the store module.
    "[name] if version absent/"latest" ..., [name/version] if version
    present".  With an empty version [name/version] is [name/], which the
    backend resolves to the directory of the name. *)
Definition path (tag : t) : fspath :=
  match version tag with
  | None => [name tag]
  | Some v =>
      if String.eqb v "latest" then [name tag]
      else if String.eqb v "" then [name tag]
      else [name tag; v]
  end.

(** Modelled from the spec: [Tag.latest_path] is not part of the store
    module.  "always [name/latest], independent of this tag's own
    version". *)
Definition latest_path (tag : t) : fspath :=
  [name tag; "latest"].

(** [str(tag)] *)
Definition to_string (tag : t) : string :=
  match version tag with
  | None => name tag
  | Some v => name tag ++ ":" ++ v
  end.

(** Modelled from the spec: [Tag.__lt__] is not part of the store module.
    "tags order by name then by version (string ordering over version
    ...)"; a tag without version sorts before the versions of its name. *)
Definition ltb (a b : t) : bool :=
  if String.eqb (name a) (name b) then
    match version a, version b with
    | _, None => false
    | None, Some _ => true
    | Some va, Some vb => String.ltb va vb
    end
  else String.ltb (name a) (name b).

(** Python truthiness of a tag-like: the empty string is falsy. *)
Definition truthy (x : taglike) : bool :=
  match x with
  | Str s => negb (String.eqb s "")
  | Obj _ => true
  end.

End Tag.

(** ** Store items: the [StoreItem] abstract base class *)
Module StoreItem.
Class t (Item : Type) := {
  (** [cls.__name__] *)
  type_name : string;
  tag : Item → Tag.t;
  from_fs : Tag.t → node → Item;
  (** a [datetime], as microseconds since the epoch *)
  creation_time : Item → Z;
}.
End StoreItem.

(** How the block under [with store.register(tag) as path:] is left. *)
Inductive exit_path :=
| NormalCompletion
| CallerRaised (what : string)
| Cancellation.

Definition exit_result (how : exit_path) : result unit :=
  match how with
  | NormalCompletion => Ok tt
  | CallerRaised what => Raise (CallerError what)
  | Cancellation => Raise Cancelled
  end.

(** ** The store *)
Section Store.
Context {Item : Type} `{StoreItem.t Item}.

Definition _get_item (fs : node) (tag : Tag.t) : result Item :=
  try! d := FS.opendir fs (Tag.path tag) in Ok (StoreItem.from_fs tag d).

(** [Store.list] for a truthy [tag]. *)
Definition Store_list_tag (fs : node) (tag : Tag.taglike) : result (list Item) :=
  try! _tag := Tag.from_taglike tag in
  match Tag.version _tag with
  | None =>
      try! infos := FS.scandir fs [Tag.name _tag] in
      let tags :=
        sorted Tag.ltb
          ((λ f, Tag.mk (Tag.name _tag) (Some f.1)) <$> filter (λ f, f.2 = true) infos) in
      mapM (_get_item fs) tags
  | Some _ =>
      if FS.isdir fs (Tag.path _tag)
      then try! item := _get_item fs _tag in Ok [item]
      else Ok []
  end.

(** [Store.list] without a filter.  The recursive calls [self.list(_d)]
    are on directory names; on an empty name the recursion would not
    end. *)
Definition Store_list_all (fs : node) : result (list Item) :=
  try! names := FS.listdir fs [] in
  try! groups :=
    mapM (λ _d, if String.eqb _d "" then Raise RecursionError
                else Store_list_tag fs (Tag.Str _d))
         (sorted String.ltb names) in
  Ok (concat groups).

Definition Store_list (fs : node) (tag : option Tag.taglike) : result (list Item) :=
  match tag with
  | None => Store_list_all fs
  | Some x => if Tag.truthy x then Store_list_tag fs x else Store_list_all fs
  end.

(** [vers += match.info.name]: a list extended by a string takes each of
    its characters as an element. *)
Definition chars (s : string) : list string :=
  (λ c, String c EmptyString) <$> list_ascii_of_string s.

Definition latest_requested (tag : Tag.t) : bool :=
  match Tag.version tag with
  | None => true
  | Some v => String.eqb v "latest"
  end.

(** The first step of [Store.get]: substitute the latest pointer. *)
Definition resolve_latest (fs : node) (_tag : Tag.t) : result Tag.t :=
  if latest_requested _tag then
    match FS.readtext fs (Tag.latest_path _tag) with
    | Ok text => Ok (Tag.mk (Tag.name _tag) (Some text))
    | Raise (ResourceNotFound _) =>
        Raise (NotFound (NoItemsWithName StoreItem.type_name (Tag.name _tag)))
    | Raise e => Raise e
    end
  else Ok _tag.

(** What [f"{tag}"] prints in [get]: [_tag] is the caller's object when a
    [Tag] was passed, so it shows the substituted version. *)
Definition requested (tag : Tag.taglike) (_tag : Tag.t) : string :=
  match tag with
  | Tag.Str s => s
  | Tag.Obj _ => Tag.to_string _tag
  end.

(** The rest of [Store.get], from [path = _tag.path()] on: the exact
    version, or else the versions the requested one is a prefix of. *)
Definition get_version (fs : node) (tag : Tag.taglike) (_tag : Tag.t) : result Item :=
  let path := Tag.path _tag in
  if FS.exists_ fs path then _get_item fs _tag
  else
    let matches := FS.glob fs path in
    let counts := length matches in
    if Nat.eqb counts 0 then
      Raise (NotFound (ItemNotFound StoreItem.type_name (requested tag _tag)))
    else if Nat.eqb counts 1 then
      match matches with
      | [] => Raise StopIteration
      | m :: _ => _get_item fs (Tag.mk (Tag.name _tag) (Some m))
      end
    else
      let vers := foldl (λ vers m, (vers ++ chars m)%list) [] matches in
      Raise (BentoMLException (MultipleVersionsMatched (Tag.version _tag) vers)).

Definition Store_get (fs : node) (tag : Tag.taglike) : result Item :=
  try! _tag0 := Tag.from_taglike tag in
  try! _tag := resolve_latest fs _tag0 in
  get_version fs tag _tag.

(** The [finally] block of [register]: [open(latest_path, "w")] creates or
    truncates the file, then [write(_tag.version)] fills it; writing
    [None] is a [TypeError]. *)
Definition link_latest (fs : node) (_tag : Tag.t) : result unit * node :=
  match FS.writetext fs (Tag.latest_path _tag) "" with
  | Raise e => (Raise e, fs)
  | Ok fs' =>
      match Tag.version _tag with
      | None => (Raise TypeError, fs')
      | Some v =>
          match FS.writetext fs' (Tag.latest_path _tag) v with
          | Raise e => (Raise e, fs')
          | Ok fs'' => (Ok tt, fs'')
          end
      end
  end.

(** [with store.register(tag) as path: body]: the block receives the
    path of the directory that was created for it and fills that
    directory in; [body] gives how the block exits and the entries it
    leaves there. *)
Definition Store_register (fs : node) (tag : Tag.taglike)
    (body : fspath → exit_path * gmap string node) : result unit * node :=
  match Tag.from_taglike tag with
  | Raise e => (Raise e, fs)
  | Ok _tag =>
      let item_path := Tag.path _tag in
      if FS.exists_ fs item_path then
        (Raise (BentoMLException (ItemAlreadyExists (Tag.to_string _tag))), fs)
      else
        match FS.makedirs fs item_path with
        | Raise e => (Raise e, fs)
        | Ok fs1 =>
            let '(how, entries) := body item_path in
            let fs2 := FS.set_entries fs1 item_path entries in
            match link_latest fs2 _tag with
            | (Raise e, fs3) => (Raise e, fs3)
            | (Ok _, fs3) => (exit_result how, fs3)
            end
        end
  end.

(** The rest of [Store.delete], once the tag's tree is removed: drop the
    name with its last version, or else point [latest] again. *)
Definition update_latest (fs1 : node) (_tag : Tag.t) : result unit * node :=
  if FS.isdir fs1 [Tag.name _tag] then
    match Store_list fs1 (Some (Tag.Str (Tag.name _tag))) with
    | Raise e => (Raise e, fs1)
    | Ok versions =>
        if Nat.eqb (length versions) 0 then
          match FS.removetree fs1 [Tag.name _tag] with
          | Raise e => (Raise e, fs1)
          | Ok fs2 => (Ok tt, fs2)
          end
        else
          match sorted (λ a b, StoreItem.creation_time a <? StoreItem.creation_time b)
                       versions with
          | [] => (Raise IndexError, fs1)
          | new_latest :: _ =>
              match FS.writetext fs1 (Tag.latest_path _tag)
                                 (Tag.name (StoreItem.tag new_latest)) with
              | Raise e => (Raise e, fs1)
              | Ok fs2 => (Ok tt, fs2)
              end
          end
    end
  else (Ok tt, fs1).

Definition Store_delete (fs : node) (tag : Tag.taglike) : result unit * node :=
  match Tag.from_taglike tag with
  | Raise e => (Raise e, fs)
  | Ok _tag =>
      match FS.removetree fs (Tag.path _tag) with
      | Raise e => (Raise e, fs)
      | Ok fs1 => update_latest fs1 _tag
      end
  end.

End Store.

(** ** A concrete item type and some stores

    A bento whose directory holds its creation time, in decimal, in the
    file [created]. *)
Module Bento.

Record t := mk { tag : Tag.t; created : Z }.

Definition digit (c : ascii) : Z := Z.of_nat (nat_of_ascii c) - 48.

Definition decimal (s : string) : Z :=
  foldl (λ acc c, 10 * acc + digit c) 0 (list_ascii_of_string s).

Definition from_fs (tag : Tag.t) (d : node) : t :=
  mk tag (match FS.readtext d ["created"] with
          | Ok text => decimal text
          | Raise _ => 0
          end).

#[global] Instance item : StoreItem.t t := {|
  StoreItem.type_name := "Bento";
  StoreItem.tag := tag;
  StoreItem.from_fs := from_fs;
  StoreItem.creation_time := created;
|}.

(** What a caller writes into a freshly registered directory. *)
Definition populate (stamp : string) (how : exit_path)
    : fspath → exit_path * gmap string node :=
  λ _, (how, {[ "created" := File stamp ]}).

Definition register (fs : node) (tag : string) (stamp : string) : node :=
  (Store_register fs (Tag.Str tag) (populate stamp NormalCompletion)).2.

(** A block that writes nothing and completes. *)
Definition leave_empty : fspath → exit_path * gmap string node :=
  λ _, (NormalCompletion, ∅).

Definition delete (fs : node) (tag : string) : node :=
  (Store_delete fs (Tag.Str tag)).2.

Definition empty_store : node := Dir ∅.

(** [demo:1] *)
Definition one_version : node := register empty_store "demo:1" "100".

(** [demo:1], then the later [demo:2] *)
Definition two_versions : node := register one_version "demo:2" "200".

(** [demo:10] alone, and next to [demo:1] *)
Definition only_ten : node := register empty_store "demo:10" "100".
Definition one_and_ten : node := register only_ten "demo:1" "200".

(** [demo:1a] and [demo:1b] *)
Definition shared_prefix : node :=
  register (register empty_store "demo:1a" "100") "demo:1b" "200".

(** [demo:1] and, under another name, [other:1] *)
Definition two_names : node := register one_version "other:1" "50".

End Bento.

(** ** Well-formed tags and stores *)

(** The spec's invariant on tag names: non-empty and free of separators. *)
Fixpoint colon_free (s : string) : bool :=
  match s with
  | EmptyString => true
  | String c s' => negb (Ascii.eqb c ":"%char) && colon_free s'
  end.

Definition valid_name (n : string) : Prop :=
  n ≠ "" ∧ colon_free n = true.

(** A version that names a version directory: neither the reserved token
    nor the empty string, which no parsed tag carries. *)
Definition concrete_version (tag : Tag.t) (v : string) : Prop :=
  Tag.version tag = Some v ∧ v ≠ "latest" ∧ v ≠ "".

(** The directory layout the store maintains ("it assumes that no direct
    modification of the files in its directory has occurred"): the root
    holds one directory per name, a name directory holds version
    directories and at most the file [latest]. *)
Definition name_layout (e : node) : Prop :=
  match e with
  | File _ => False
  | Dir m => map_Forall (λ v f, FS.is_dir f = negb (String.eqb v "latest")) m
  end.

Definition store_layout (fs : node) : Prop :=
  match fs with
  | File _ => False
  | Dir root => map_Forall (λ n e, valid_name n ∧ name_layout e) root
  end.

#[global] Instance name_layout_dec e : Decision (name_layout e).
Proof. destruct e; simpl; apply _. Defined.

#[global] Instance store_layout_dec fs : Decision (store_layout fs).
Proof. destruct fs; simpl; apply _. Defined.

(** The latest pointer of a name exists only next to a version of it. *)
Definition latest_inv (fs : node) : Prop :=
  ∀ n, FS.isfile fs [n; "latest"] = true → ∃ v, FS.isdir fs [n; v] = true.

(** [latest_inv], entry by entry: a name directory with a pointer file has a
    version directory. *)
Definition pointer_ok (e : node) : Prop :=
  match e with
  | File _ => True
  | Dir m => (∃ text, m !! "latest" = Some (File text)) → ∃ v m', m !! v = Some (Dir m')
  end.

(** ** Tags and paths *)

Lemma eqb_latest_false (v : string) : v ≠ "latest" → String.eqb v "latest" = false.
Proof. intros. by apply String.eqb_neq. Qed.

Lemma path_concrete (tag : Tag.t) (v : string) :
  concrete_version tag v → Tag.path tag = [Tag.name tag; v].
Proof.
  intros (Hv & Hne & Hnonempty). unfold Tag.path. rewrite Hv, eqb_latest_false by done.
  by apply String.eqb_neq in Hnonempty as ->.
Qed.

Lemma split_colon_free (n : string) : colon_free n = true → Tag.split_colon n = (n, None).
Proof.
  induction n as [|c n IH]; simpl; [done|]. intros [Hc Hn]%andb_prop.
  apply negb_true_iff in Hc. rewrite Hc, (IH Hn). done.
Qed.

Lemma from_taglike_name (n : string) :
  valid_name n → Tag.from_taglike (Tag.Str n) = Ok (Tag.mk n None).
Proof.
  intros [Hne Hc]. simpl. rewrite (split_colon_free _ Hc).
  by apply String.eqb_neq in Hne as ->.
Qed.

Lemma from_taglike_truthy (tag : Tag.taglike) (_tag : Tag.t) :
  Tag.from_taglike tag = Ok _tag → Tag.truthy tag = true.
Proof.
  destruct tag as [s|t]; [|done]. simpl. destruct s as [|c s]; [done|done].
Qed.

(** ** Sorting *)

Section SortedFacts.
Context {A : Type} (lt : A → A → bool).

Lemma insert_sorted_Permutation (x : A) (l : list A) : insert_sorted lt x l ≡ₚ x :: l.
Proof.
  induction l as [|y l IH]; simpl; [done|].
  destruct (lt y x); [|done]. rewrite IH. apply Permutation_swap.
Qed.

Lemma sorted_Permutation (l : list A) : sorted lt l ≡ₚ l.
Proof.
  induction l as [|x l IH]; simpl; [done|].
  by rewrite insert_sorted_Permutation, IH.
Qed.

Lemma sorted_length (l : list A) : length (sorted lt l) = length l.
Proof. apply Permutation_length, sorted_Permutation. Qed.

Hypothesis lt_asym : ∀ a b, lt a b = true → lt b a = false.

Lemma insert_sorted_Sorted (x : A) (l : list A) :
  Sorted (λ a b, lt b a = false) l → Sorted (λ a b, lt b a = false) (insert_sorted lt x l).
Proof.
  induction 1 as [|y l Hs IH Hhd]; simpl.
  - by repeat constructor.
  - destruct (lt y x) eqn:Hyx.
    + constructor; [done|]. destruct Hhd as [|z l Hyz]; simpl.
      * constructor. by apply lt_asym.
      * destruct (lt z x); constructor; [done|by apply lt_asym].
    + by repeat constructor.
Qed.

Lemma sorted_Sorted (l : list A) : Sorted (λ a b, lt b a = false) (sorted lt l).
Proof.
  induction l as [|x l IH]; simpl; [constructor|]. by apply insert_sorted_Sorted.
Qed.
End SortedFacts.

Lemma insert_sorted_fmap {A B} (f : A → B) (ltA : A → A → bool) (ltB : B → B → bool)
    (x : A) (l : list A) :
  (∀ a b, ltB (f a) (f b) = ltA a b) →
  insert_sorted ltB (f x) (f <$> l) = f <$> insert_sorted ltA x l.
Proof.
  intros Hf. induction l as [|y l IH]; csimpl; [done|].
  rewrite Hf. destruct (ltA y x); csimpl; by rewrite ?IH.
Qed.

Lemma sorted_fmap {A B} (f : A → B) (ltA : A → A → bool) (ltB : B → B → bool) (l : list A) :
  (∀ a b, ltB (f a) (f b) = ltA a b) →
  sorted ltB (f <$> l) = f <$> sorted ltA l.
Proof.
  intros Hf. induction l as [|x l IH]; csimpl; [done|].
  rewrite IH. by apply insert_sorted_fmap.
Qed.

Lemma string_ltb_asym (a b : string) : String.ltb a b = true → String.ltb b a = false.
Proof.
  unfold String.ltb. rewrite (String.compare_antisym a b).
  by destruct (String.compare b a).
Qed.

Lemma string_ltb_leb (a b : string) : String.ltb b a = false ↔ String.leb a b = true.
Proof.
  unfold String.ltb, String.leb. rewrite (String.compare_antisym a b).
  by destruct (String.compare b a).
Qed.

Lemma sorted_strings (l : list string) :
  Sorted (λ a b, String.leb a b = true) (sorted String.ltb l).
Proof.
  rewrite <- (list_fmap_id (sorted String.ltb l)).
  eapply Sorted_fmap; [|apply sorted_Sorted, string_ltb_asym].
  intros a b. apply string_ltb_leb.
Qed.

Lemma mapM_Forall2 {A B} (f : A → result B) (l : list A) :
  (∀ a, a ∈ l → ∃ b, f a = Ok b) →
  ∃ bs, mapM f l = Ok bs ∧ Forall2 (λ a b, f a = Ok b) l bs.
Proof.
  induction l as [|a l IH]; intros Hl; simpl.
  - exists []. by split.
  - destruct (Hl a) as [b Hb]; [left|]. destruct IH as (bs & Hbs & HF).
    { intros a' Ha'. apply Hl. by right. }
    exists (b :: bs). rewrite Hb, Hbs. split; [done|by constructor].
Qed.

(** ** The backend *)

Lemma exists_isdir (fs : node) (p : fspath) : FS.isdir fs p = true → FS.exists_ fs p = true.
Proof. unfold FS.isdir, FS.exists_. by destruct (FS.lookup fs p). Qed.

Lemma removetree_missing (full : fspath) (fs : node) (p : fspath) :
  FS.lookup fs p = None → FS.removetree_from full fs p = Raise (ResourceNotFound full).
Proof.
  revert fs. induction p as [|c p IH]; intros fs Hl; [done|].
  destruct fs as [|m]; [by destruct p|]. simpl in *.
  destruct (m !! c) as [n|] eqn:Hc.
  - destruct p as [|c' p']; [done|]. by rewrite (IH n Hl).
  - by destruct p.
Qed.

Lemma split_last_snoc (d : fspath) (c : string) : FS.split_last (d ++ [c]) = Some (d, c).
Proof.
  induction d as [|a d IH]; [done|].
  change ((a :: d) ++ [c])%list with (a :: (d ++ [c]))%list. simpl. rewrite IH.
  by destruct d.
Qed.

Lemma lookup_snoc (fs : node) (d : fspath) (c : string) :
  FS.lookup fs (d ++ [c]) =
  match FS.lookup fs d with
  | Some (Dir m) => m !! c
  | _ => None
  end.
Proof.
  revert fs. induction d as [|a d IH]; intros fs; simpl.
  - destruct fs as [|m]; [done|]. by destruct (m !! c).
  - destruct fs as [|m]; [done|]. destruct (m !! a); [apply IH | done].
Qed.

(** [glob] finds exactly the directories whose name starts with the stem. *)
Lemma elem_of_glob (fs : node) (d : fspath) (stem x : string) :
  x ∈ FS.glob fs (d ++ [stem])
  ↔ String.prefix stem x = true ∧ FS.isdir fs (d ++ [x]) = true.
Proof.
  unfold FS.glob, FS.isdir. rewrite split_last_snoc, lookup_snoc.
  destruct (FS.lookup fs d) as [[|m]|].
  - rewrite elem_of_nil. split; [done|by intros [_ ?]].
  - rewrite list_elem_of_fmap. split.
    + intros ([k e] & -> & Hin). apply list_elem_of_filter in Hin as [Hp Hin].
      apply elem_of_map_to_list in Hin. simpl in *. rewrite Hin.
      apply andb_prop in Hp as [? ?]. by destruct e.
    + intros [Hp Hd]. destruct (m !! x) as [[|m']|] eqn:Hx; [done| |done].
      exists (x, Dir m'). split; [done|]. apply list_elem_of_filter. split.
      * simpl. by rewrite Hp.
      * by apply elem_of_map_to_list.
  - rewrite elem_of_nil. split; [done|by intros [_ ?]].
Qed.

Lemma NoDup_glob (fs : node) (p : fspath) : NoDup (FS.glob fs p).
Proof.
  unfold FS.glob. destruct (FS.split_last p) as [[d stem]|]; [|constructor].
  destruct (FS.lookup fs d) as [[|m]|]; try constructor.
  eapply NoDup_fmap_fst.
  - intros k e1 e2 H1%list_elem_of_filter H2%list_elem_of_filter.
    destruct H1 as [_ H1%elem_of_map_to_list], H2 as [_ H2%elem_of_map_to_list].
    congruence.
  - apply NoDup_filter, NoDup_map_to_list.
Qed.

Lemma NoDup_singleton_eq {A} (l : list A) (w : A) :
  NoDup l → (∀ x, x ∈ l ↔ x = w) → l = [w].
Proof.
  intros Hnd Hw. destruct l as [|a l].
  - destruct (Hw w) as [_ Hnil]. specialize (Hnil eq_refl). by apply elem_of_nil in Hnil.
  - assert (a = w) as -> by (apply Hw; left).
    destruct l as [|b l]; [done|].
    assert (b = w) as -> by (apply Hw; right; left).
    apply NoDup_cons in Hnd as [Hn _]. exfalso. apply Hn. left.
Qed.

(** The version directories of a name, as [scandir] reports them. *)
Lemma scandir_versions (fs : node) (n : string) (infos : list (string * bool)) :
  FS.scandir fs [n] = Ok infos →
  NoDup (filter (λ f, f.2 = true) infos).*1
  ∧ ∀ v, v ∈ (filter (λ f, f.2 = true) infos).*1 ↔ FS.isdir fs [n; v] = true.
Proof.
  unfold FS.scandir, FS.isdir. intros Hs. split; [|intros v].
  - destruct (FS.lookup fs [n]) as [[|m]|]; try done. injection Hs as <-.
    eapply sublist_NoDup; [|apply fmap_sublist, sublist_filter].
    rewrite <- list_fmap_compose.
    erewrite list_fmap_ext; [apply NoDup_fst_map_to_list|]. by intros i [k e] _.
  - change [n; v] with ([n] ++ [v])%list. rewrite lookup_snoc.
    destruct (FS.lookup fs [n]) as [[|m]|]; try done. injection Hs as <-.
    rewrite list_elem_of_fmap. split.
    + intros ([k b] & -> & [Hb Hin]%list_elem_of_filter).
      apply list_elem_of_fmap in Hin as ([k' e] & [= -> ->] & Hin%elem_of_map_to_list).
      simpl in *. rewrite Hin. by destruct e.
    + intros Hd. destruct (m !! v) as [[|m']|] eqn:Hv; try done.
      exists (v, true). split; [done|]. apply list_elem_of_filter. split; [done|].
      apply list_elem_of_fmap. exists (v, Dir m'). split; [done|].
      by apply elem_of_map_to_list.
Qed.

Lemma removetree_name (fs fs1 : node) (n : string) :
  FS.removetree fs [n] = Ok fs1 →
  ∃ root, fs = Dir root ∧ fs1 = Dir (delete n root).
Proof.
  unfold FS.removetree. destruct fs as [|root]; [done|]. simpl.
  destruct (root !! n) as [[|m]|]; try done. intros [= <-]. eauto.
Qed.

Lemma removetree_version (fs fs1 : node) (n v : string) :
  FS.removetree fs [n; v] = Ok fs1 →
  ∃ root m m', fs = Dir root ∧ root !! n = Some (Dir m) ∧ m !! v = Some (Dir m')
               ∧ fs1 = Dir (<[n := Dir (delete v m)]> root).
Proof.
  unfold FS.removetree. destruct fs as [|root]; [done|]. simpl.
  destruct (root !! n) as [[|m]|] eqn:Hn; try done. simpl.
  destruct (m !! v) as [[|m']|] eqn:Hv; try done. simpl. intros [= <-].
  by exists root, m, m'.
Qed.

Lemma writetext_in_name (fs fs2 : node) (n c text : string) :
  FS.writetext fs [n; c] text = Ok fs2 →
  ∃ root m, fs = Dir root ∧ root !! n = Some (Dir m)
            ∧ (∀ m', m !! c ≠ Some (Dir m'))
            ∧ fs2 = Dir (<[n := Dir (<[c := File text]> m)]> root).
Proof.
  unfold FS.writetext. destruct fs as [|root]; [done|]. simpl.
  destruct (root !! n) as [[|m]|] eqn:Hn; try done. simpl.
  destruct (m !! c) as [[|m']|] eqn:Hc; try done; simpl; intros [= <-];
    exists root, m; split_and!; try done; intros m''; congruence.
Qed.

Lemma makedirs_version (fs fs1 : node) (n v : string) :
  FS.makedirs fs [n; v] = Ok fs1 →
  ∃ root m, fs = Dir root ∧ (root !! n = None ∧ m = ∅ ∨ root !! n = Some (Dir m))
            ∧ m !! v = None
            ∧ fs1 = Dir (<[n := Dir (<[v := Dir ∅]> m)]> root).
Proof.
  unfold FS.makedirs. destruct fs as [|root]; [done|]. simpl.
  destruct (root !! n) as [[|m]|] eqn:Hn; try done; simpl.
  - destruct (m !! v) as [[|m']|] eqn:Hv; try done; simpl. intros [= <-].
    exists root, m. split_and!; auto.
  - intros [= <-]. exists root, ∅. split_and!; auto.
Qed.

(** ** The latest-pointer invariant, entry by entry *)

Lemma latest_inv_Dir (root : gmap string node) :
  latest_inv (Dir root) ↔ map_Forall (λ _ e, pointer_ok e) root.
Proof.
  unfold latest_inv, FS.isfile, FS.isdir. simpl. split.
  - intros Hinv n e Hn. destruct e as [|m]; [done|]. intros [text Hl].
    destruct (Hinv n) as [v Hv]; [by rewrite Hn, Hl|]. rewrite Hn in Hv.
    destruct (m !! v) as [[|m']|] eqn:Hm; try done. eauto.
  - intros Hall n Hf. destruct (root !! n) as [[|m]|] eqn:Hn; try done.
    destruct (m !! "latest") as [[text|]|] eqn:Hl; try done.
    destruct (Hall _ _ Hn) as (v & m' & Hv); [by eauto|]. exists v. by rewrite Hv.
Qed.

Lemma latest_inv_File (text : string) : latest_inv (File text).
Proof. intros n. by unfold FS.isfile. Qed.


Lemma pointer_ok_version (m : gmap string node) (v : string) (m' : gmap string node) :
  m !! v = Some (Dir m') → pointer_ok (Dir m).
Proof. intros Hv _. eauto. Qed.

Lemma pointer_ok_linked (m : gmap string node) (v text : string) (m' : gmap string node) :
  m !! v = Some (Dir m') →
  (∀ d, m !! "latest" ≠ Some (Dir d)) →
  pointer_ok (Dir (<["latest" := File text]> m)).
Proof.
  intros Hv Hl. apply (pointer_ok_version _ v m').
  rewrite lookup_insert_ne; [done|]. intros <-. by apply (Hl m').
Qed.


Lemma latest_inv_empty : latest_inv (Dir ∅).
Proof. apply latest_inv_Dir, map_Forall_empty. Qed.

(** ** [Store.get] *)
Section GetFacts.
Context {Item : Type} `{StoreItem.t Item}.

Lemma resolve_concrete (fs : node) (_tag : Tag.t) (v : string) :
concrete_version _tag v → resolve_latest fs _tag = Ok _tag.
Proof.
intros (Hv & Hne & _). unfold resolve_latest, latest_requested.
by rewrite Hv, eqb_latest_false.
Qed.

Lemma layout_no_stray_file (fs : node) (n v : string) :
store_layout fs → v ≠ "latest" → FS.isdir fs [n; v] = FS.exists_ fs [n; v].
Proof.
intros Hlay Hne. destruct fs as [|root]; [done|].
unfold FS.isdir, FS.exists_. simpl in *.
destruct (root !! n) as [e|] eqn:Hn; [|done].
destruct (Hlay _ _ Hn) as [_ Hl]. destruct e as [|m]; [done|].
destruct (m !! v) as [f|] eqn:Hf; [|done].
specialize (Hl _ _ Hf). simpl in Hl. rewrite eqb_latest_false in Hl by done.
by destruct f.
Qed.

Lemma get_item_at_version (fs : node) (n w : string) :
FS.isdir fs [n; w] = true →
∃ d, FS.opendir fs (Tag.path (Tag.mk n (Some w))) = Ok d
     ∧ _get_item fs (Tag.mk n (Some w)) = Ok (StoreItem.from_fs (Tag.mk n (Some w)) d).
Proof.
intros Hd. unfold _get_item, Tag.path, FS.opendir, FS.isdir in *. simpl in *.
destruct fs as [|root]; [done|]. destruct (root !! n) as [[|m]|] eqn:Hn; try done.
destruct (w =? "latest")%string; [simpl; rewrite Hn; by eauto|].
destruct (w =? "")%string; simpl; rewrite Hn; [by eauto|].
destruct (m !! w) as [[|m']|]; try done. eauto.
Qed.

Lemma get_item_not_NotFound (fs : node) (t : Tag.t) (msg : message) :
_get_item fs t ≠ Raise (NotFound msg).
Proof.
unfold _get_item, FS.opendir.
by destruct (FS.lookup fs (Tag.path t)) as [[|m]|].
Qed.

Lemma get_version_NotFound (fs : node) (tag : Tag.taglike) (w : Tag.t) (msg : message) :
get_version fs tag w = Raise (NotFound msg)
↔ FS.exists_ fs (Tag.path w) = false
  ∧ FS.glob fs (Tag.path w) = []
  ∧ msg = ItemNotFound StoreItem.type_name (requested tag w).
Proof.
unfold get_version. destruct (FS.exists_ fs (Tag.path w)).
- split; [|by intros [? _]]. intros Hg. by apply get_item_not_NotFound in Hg.
- destruct (FS.glob fs (Tag.path w)) as [|a [|b l]]; simpl.
  + split; [by intros [= <-]|by intros (_ & _ & ->)].
  + split; [|by intros (_ & ? & _)]. intros Hg. by apply get_item_not_NotFound in Hg.
  + split; [done|by intros (_ & ? & _)].
Qed.

(** C5.  For a [get] with an explicit version, the exact version directory
  wins: if it exists, the item of that exact tag is returned; only
  otherwise is the version taken as a prefix, and when exactly one
  version directory of the name starts with it, the item of that matched
  version is returned. *)
Theorem get_exact_before_prefix (fs : node) (tag : Tag.taglike) (_tag : Tag.t) (v : string) :
Tag.from_taglike tag = Ok _tag →
concrete_version _tag v →
store_layout fs →
(FS.isdir fs [Tag.name _tag; v] = true →
   ∃ d, FS.opendir fs [Tag.name _tag; v] = Ok d
        ∧ Store_get fs tag = Ok (StoreItem.from_fs _tag d))
∧ (FS.isdir fs [Tag.name _tag; v] = false →
   ∀ w, (∀ x, String.prefix v x = true ∧ FS.isdir fs [Tag.name _tag; x] = true ↔ x = w) →
     ∃ d, FS.opendir fs (Tag.path (Tag.mk (Tag.name _tag) (Some w))) = Ok d
          ∧ Store_get fs tag = Ok (StoreItem.from_fs (Tag.mk (Tag.name _tag) (Some w)) d)).
Proof.
intros Htag Hv Hlay. pose proof (path_concrete _ _ Hv) as Hpath.
unfold Store_get. rewrite Htag. simpl. rewrite (resolve_concrete _ _ _ Hv). simpl.
unfold get_version. rewrite Hpath. rewrite <- (layout_no_stray_file fs _ v Hlay (proj1 (proj2 Hv))).
split; intros Hd; rewrite Hd.
- unfold _get_item. rewrite Hpath. unfold FS.opendir, FS.isdir in *.
  destruct (FS.lookup fs [Tag.name _tag; v]) as [[|m]|]; try done. eauto.
- intros w Hw.
  assert (FS.glob fs [Tag.name _tag; v] = [w]) as ->.
  { apply NoDup_singleton_eq; [apply NoDup_glob|]. intros x.
    rewrite <- Hw. apply (elem_of_glob fs [Tag.name _tag] v x). }
  simpl. apply get_item_at_version. by apply Hw.
Qed.

Lemma get_NotFound_resolved (fs : node) (tag : Tag.taglike) (_tag : Tag.t) (msg : message) :
Tag.from_taglike tag = Ok _tag →
Store_get fs tag = Raise (NotFound msg)
↔ (latest_requested _tag = true
   ∧ FS.exists_ fs (Tag.latest_path _tag) = false
   ∧ msg = NoItemsWithName StoreItem.type_name (Tag.name _tag))
  ∨ (∃ working, resolve_latest fs _tag = Ok working
       ∧ FS.exists_ fs (Tag.path working) = false
       ∧ FS.glob fs (Tag.path working) = []
       ∧ msg = ItemNotFound StoreItem.type_name (requested tag working)).
Proof.
intros Htag. unfold Store_get. rewrite Htag. simpl.
destruct (resolve_latest fs _tag) as [w|e] eqn:Hres; simpl.
- rewrite get_version_NotFound. split.
  + intros Hw. right. by exists w.
  + intros [(Hlr & Hex & _)|(w' & [= <-] & Hw)]; [|done].
    unfold resolve_latest, FS.readtext, FS.exists_ in *. rewrite Hlr in Hres.
    by destruct (FS.lookup fs (Tag.latest_path _tag)) as [[|]|].
- split.
  + intros [= ->]. left.
    unfold resolve_latest, FS.readtext, FS.exists_ in *.
    destruct (latest_requested _tag); [|done].
    destruct (FS.lookup fs (Tag.latest_path _tag)) as [[|]|]; try done.
    by injection Hres as <-.
  + intros [(Hlr & Hex & ->)|(w' & [=] & _)].
    unfold resolve_latest, FS.readtext, FS.exists_ in *. rewrite Hlr in Hres.
    destruct (FS.lookup fs (Tag.latest_path _tag)) as [[|]|]; try done.
    by injection Hres as <-.
Qed.

Lemma latest_requested_true (_tag : Tag.t) :
latest_requested _tag = true
↔ Tag.version _tag = None ∨ Tag.version _tag = Some "latest".
Proof.
unfold latest_requested. destruct (Tag.version _tag) as [v|]; [|by intuition].
rewrite String.eqb_eq. split; [intros ->; by right|]. by intros [?|[= ->]].
Qed.

Lemma latest_requested_false (_tag : Tag.t) :
latest_requested _tag = false
↔ ∃ w, Tag.version _tag = Some w ∧ w ≠ "latest".
Proof.
unfold latest_requested. destruct (Tag.version _tag) as [v|].
- rewrite String.eqb_neq. split; [by eauto|]. by intros (w & [= ->] & ?).
- split; [done|]. by intros (w & ? & _).
Qed.

Lemma resolve_latest_Ok (fs : node) (_tag working : Tag.t) :
resolve_latest fs _tag = Ok working
↔ latest_requested _tag = false ∧ working = _tag
  ∨ latest_requested _tag = true
    ∧ ∃ text, FS.readtext fs [Tag.name _tag; "latest"] = Ok text
              ∧ working = Tag.mk (Tag.name _tag) (Some text).
Proof.
unfold resolve_latest, Tag.latest_path. destruct (latest_requested _tag).
- destruct (FS.readtext fs _) as [text|e].
  + split; [intros [= <-]; right; by eauto|].
    by intros [[? _]|(_ & text' & [= <-] & ->)].
  + split; [by destruct e|]. by intros [[? _]|(_ & text' & ? & _)].
- split; [intros [= <-]; by left|]. by intros [[_ ->]|[? _]].
Qed.

Lemma readtext_in_existing (fs : node) (n c text : string) :
FS.readtext fs [n; c] = Ok text → FS.exists_ fs [n] = true.
Proof.
unfold FS.readtext, FS.exists_. destruct fs as [|root]; [done|]. simpl.
by destruct (root !! n) as [[|m]|].
Qed.

Lemma path_of_version (n w : string) :
w ≠ "latest" → w ≠ "" → Tag.path (Tag.mk n (Some w)) = [n; w].
Proof. intros. by apply (path_concrete (Tag.mk n (Some w)) w). Qed.

Lemma path_of_reserved (n w : string) :
w = "latest" ∨ w = "" → Tag.path (Tag.mk n (Some w)) = [n].
Proof. by intros [->| ->]. Qed.

Lemma glob_nil (fs : node) (n w : string) :
FS.glob fs [n; w] = []
↔ ∀ x, String.prefix w x = true → FS.isdir fs [n; x] = false.
Proof.
split.
- intros Hg x Hp. destruct (FS.isdir fs [n; x]) eqn:Hd; [|done].
  assert (Hx : x ∈ FS.glob fs ([n] ++ [w])) by by apply elem_of_glob.
  simpl in Hx. rewrite Hg in Hx. by apply elem_of_nil in Hx.
- intros Hnone. apply elem_of_nil_inv. intros x Hx.
  apply (elem_of_glob fs [n] w x) in Hx as [Hp Hd]. simpl in Hd.
  by rewrite (Hnone x Hp) in Hd.
Qed.

(** The working version of [get]: the requested one, or what the latest
  pointer holds when none, or [latest], was requested; and what [f"{tag}"]
  then prints. *)
Lemma working_version (fs : node) (tag : Tag.taglike) (_tag working : Tag.t) :
resolve_latest fs _tag = Ok working →
∃ w, working = Tag.mk (Tag.name _tag) (Some w)
     ∧ (Tag.version _tag = Some w ∧ w ≠ "latest"
        ∨ (Tag.version _tag = None ∨ Tag.version _tag = Some "latest")
          ∧ FS.readtext fs [Tag.name _tag; "latest"] = Ok w)
     ∧ requested tag working
       = match tag with Tag.Str s => s | Tag.Obj _ => Tag.name _tag ++ ":" ++ w end.
Proof.
intros [[Hlr ->]|(Hlr & text & Hread & ->)]%resolve_latest_Ok.
- apply latest_requested_false in Hlr as (w & Hw & Hne). exists w.
  destruct _tag as [n v]. simpl in *. subst v. split_and!; [done|by left|].
  by destruct tag.
- apply latest_requested_true in Hlr. exists text. split_and!; [done|by right|].
  by destruct tag.
Qed.

(** C7, amended.  [get] raises [NotFound] exactly in two cases: no version
  (or [latest]) was requested and the name's latest-pointer file is
  missing, the error then naming the item type and the name; or the
  working version (the requested one, or else the pointer's contents) is
  not empty, has no path of its own and no version directory of the name
  starts with it. *)
Theorem get_NotFound_iff (fs : node) (tag : Tag.taglike) (_tag : Tag.t) (msg : message) :
Tag.from_taglike tag = Ok _tag →
Tag.version _tag ≠ Some "" →
Store_get fs tag = Raise (NotFound msg)
↔ ((Tag.version _tag = None ∨ Tag.version _tag = Some "latest")
   ∧ FS.exists_ fs [Tag.name _tag; "latest"] = false
   ∧ msg = NoItemsWithName StoreItem.type_name (Tag.name _tag))
  ∨ (∃ w, (Tag.version _tag = Some w ∧ w ≠ "latest"
           ∨ (Tag.version _tag = None ∨ Tag.version _tag = Some "latest")
             ∧ FS.readtext fs [Tag.name _tag; "latest"] = Ok w)
          ∧ w ≠ ""
          ∧ FS.exists_ fs [Tag.name _tag; w] = false
          ∧ (∀ x, String.prefix w x = true → FS.isdir fs [Tag.name _tag; x] = false)
          ∧ msg = ItemNotFound StoreItem.type_name
                    (match tag with
                     | Tag.Str s => s
                     | Tag.Obj _ => Tag.name _tag ++ ":" ++ w
                     end)).
Proof.
intros Htag Hnonempty. rewrite (get_NotFound_resolved fs tag _tag msg Htag).
rewrite latest_requested_true. unfold Tag.latest_path. split.
- intros [Hmissing|(working & Hres & Hex & Hg & ->)]; [by left|]. right.
  destruct (working_version fs tag _ _ Hres) as (w & -> & Hw & ->).
  assert (Hproper : w ≠ "latest" ∧ w ≠ "").
  { destruct Hw as [[Hv Hne]|[_ Hread]]; [split; [done|congruence]|].
    apply readtext_in_existing in Hread.
    split; intros ->; rewrite path_of_reserved in Hex by auto; congruence. }
  destruct Hproper as [Hne Hne']. rewrite path_of_version in Hex, Hg by done.
  exists w. split_and!; try done. by apply glob_nil.
- intros [Hmissing|(w & Hw & Hne' & Hex & Hnone & ->)]; [by left|]. right.
  assert (Hne : w ≠ "latest").
  { destruct Hw as [[_ Hne]|[_ Hread]]; [done|]. intros ->.
    unfold FS.readtext, FS.exists_ in *.
    by destruct (FS.lookup fs [Tag.name _tag; "latest"]). }
  exists (Tag.mk (Tag.name _tag) (Some w)).
  assert (Hres : resolve_latest fs _tag = Ok (Tag.mk (Tag.name _tag) (Some w))).
  { apply resolve_latest_Ok. destruct Hw as [[Hv _]|[Hlr Hread]].
    - left. split; [apply latest_requested_false; by eauto|].
      destruct _tag as [n v]. simpl in *. by subst v.
    - right. split; [by apply latest_requested_true|]. by eauto. }
  destruct (working_version fs tag _ _ Hres) as (w' & [= <-] & _ & ->).
  rewrite path_of_version by done. split_and!; try done. by apply glob_nil.
Qed.
End GetFacts.

(** ** [Store.list] *)
Section ListFacts.
Context {Item : Type} `{StoreItem.t Item}.

Lemma tag_ltb_same_name (n a b : string) :
Tag.ltb (Tag.mk n (Some a)) (Tag.mk n (Some b)) = String.ltb a b.
Proof. unfold Tag.ltb. simpl. by rewrite String.eqb_refl. Qed.

Lemma list_by_name (fs : node) (tag : Tag.taglike) (n : string) :
Tag.from_taglike tag = Ok (Tag.mk n None) →
FS.isdir fs [n] = true →
∃ versions items,
  Store_list_tag fs tag = Ok items
  ∧ Forall2 (λ v item, _get_item fs (Tag.mk n (Some v)) = Ok item) versions items
  ∧ Sorted (λ a b, String.leb a b = true) versions
  ∧ NoDup versions
  ∧ ∀ v, v ∈ versions ↔ FS.isdir fs [n; v] = true.
Proof.
intros Htag Hd. unfold Store_list_tag. rewrite Htag. simpl.
destruct (FS.scandir fs [n]) as [infos|e] eqn:Hs; simpl.
2: { unfold FS.scandir, FS.isdir in *. by destruct (FS.lookup fs [n]) as [[|]|]. }
destruct (scandir_versions _ _ _ Hs) as [Hnd Hin].
set (vs := (filter (λ f, f.2 = true) infos).*1) in *.
replace ((λ f : string * bool, Tag.mk n (Some f.1)) <$> filter (λ f, f.2 = true) infos)
  with ((λ v, Tag.mk n (Some v)) <$> vs).
2: { unfold vs. by rewrite <- list_fmap_compose. }
rewrite (sorted_fmap _ String.ltb) by apply tag_ltb_same_name.
pose proof (sorted_Permutation String.ltb vs) as Hperm.
destruct (mapM_Forall2 (_get_item fs) ((λ v, Tag.mk n (Some v)) <$> sorted String.ltb vs))
  as (items & Hitems & HF).
{ intros t (v & -> & Hv)%list_elem_of_fmap. rewrite Hperm in Hv.
  apply Hin, get_item_at_version in Hv as (d & _ & ->). eauto. }
exists (sorted String.ltb vs), items. split_and!.
- done.
- by apply Forall2_fmap_l in HF.
- apply sorted_strings.
- by rewrite Hperm.
- intros v. by rewrite Hperm.
Qed.




(** C3, amended.  [list] returns the empty sequence, and does not raise,
  for a name whose directory exists and holds no version directory, and
  for a tag with a version whose directory does not exist. *)
Theorem list_empty_selection (fs : node) (tag : Tag.taglike) (_tag : Tag.t) :
Tag.from_taglike tag = Ok _tag →
(Tag.version _tag = None →
   FS.isdir fs [Tag.name _tag] = true →
   (∀ v, FS.isdir fs [Tag.name _tag; v] = false) →
   Store_list fs (Some tag) = Ok [])
∧ (is_Some (Tag.version _tag) →
   FS.isdir fs (Tag.path _tag) = false →
   Store_list fs (Some tag) = Ok []).
Proof.
intros Htag. unfold Store_list. rewrite (from_taglike_truthy _ _ Htag). split.
- intros Hv Hd Hnone. destruct _tag as [n v]. simpl in *. subst v.
  destruct (list_by_name fs tag n Htag Hd) as (vs & items & -> & HF & _ & _ & Hin).
  destruct vs as [|v vs].
  + by apply Forall2_nil_inv_l in HF as ->.
  + specialize (Hin v). rewrite Hnone in Hin. exfalso.
    assert (v ∈ v :: vs) as Hv by left. by apply Hin in Hv.
- intros [v Hv] Hd. unfold Store_list_tag. rewrite Htag. simpl. by rewrite Hv, Hd.
Qed.
End ListFacts.

(** ** [Store.register] and [Store.delete] *)
Section MutationFacts.
Context {Item : Type} `{StoreItem.t Item}.

(** C6.  [register] on a tag whose directory exists raises the "already
  exists" exception and leaves the backend as it was. *)
Theorem register_existing_is_rejected (fs : node) (tag : Tag.taglike) (_tag : Tag.t)
  (body : fspath → exit_path * gmap string node) :
Tag.from_taglike tag = Ok _tag →
FS.exists_ fs (Tag.path _tag) = true →
Store_register fs tag body
= (Raise (BentoMLException (ItemAlreadyExists (Tag.to_string _tag))), fs).
Proof. intros Htag Hex. unfold Store_register. by rewrite Htag, Hex. Qed.

(** C10.  [delete] on a tag whose directory does not exist raises the
  backend's [ResourceNotFound], untranslated, and leaves the backend as it
  was. *)
Theorem delete_missing_version (fs : node) (tag : Tag.taglike) (_tag : Tag.t) :
Tag.from_taglike tag = Ok _tag →
FS.exists_ fs (Tag.path _tag) = false →
Store_delete fs tag = (Raise (ResourceNotFound (Tag.path _tag)), fs).
Proof.
intros Htag Hex. unfold Store_delete, FS.removetree. rewrite Htag.
rewrite removetree_missing; [done|].
unfold FS.exists_ in Hex. by destruct (FS.lookup fs (Tag.path _tag)).
Qed.

(** C4, amended.  Once [register] has created the directory of a versioned tag, the
  latest pointer of the name holds that version when the [with] statement
  is left, however the block exits (normally, by an error it raised, or
  cancelled) and whatever it left in the directory; the block's own exit
  is what the statement reports. *)
Theorem register_links_latest (fs : node) (tag : Tag.taglike) (_tag : Tag.t) (v : string)
  (body : fspath → exit_path * gmap string node) :
Tag.from_taglike tag = Ok _tag →
concrete_version _tag v →
store_layout fs →
FS.exists_ fs (Tag.path _tag) = false →
∃ fs', Store_register fs tag body = (exit_result (body (Tag.path _tag)).1, fs')
       ∧ FS.readtext fs' (Tag.latest_path _tag) = Ok v.
Proof.
intros Htag Hv Hlay Hex. unfold Store_register. rewrite Htag, Hex.
rewrite (path_concrete _ _ Hv) in *. destruct Hv as (Hv & Hne & Hnonempty).
destruct (body _) as [how entries]. simpl.
destruct fs as [|root]; [done|]. simpl in Hlay.
unfold FS.makedirs, FS.exists_ in *. simpl in *.
destruct (root !! Tag.name _tag) as [e|] eqn:Hn.
- destruct (Hlay _ _ Hn) as [_ Hl]. destruct e as [|m]; [done|]. simpl in *.
  destruct (m !! v) as [?|] eqn:Hmv; [done|].
  simpl. unfold link_latest, FS.writetext, Tag.latest_path. simpl.
  simplify_map_eq.
  assert (Hlat : ∀ m', m !! "latest" ≠ Some (Dir m')).
  { intros m' Hm'. by specialize (Hl _ _ Hm'). }
  destruct (m !! "latest") as [[t|m']|] eqn:Hlatest; [|by destruct (Hlat m')|];
    simpl; simplify_map_eq; (eexists; split; [done|]);
    unfold FS.readtext; simpl; by simplify_map_eq.
- simpl. unfold link_latest, FS.writetext, Tag.latest_path. simpl. simplify_map_eq.
  eexists; split; [done|]. unfold FS.readtext; simpl; by simplify_map_eq.
Qed.
Lemma update_latest_name_gone (root : gmap string node) (_tag : Tag.t) :
update_latest (Dir (delete (Tag.name _tag) root)) _tag
= (Ok tt, Dir (delete (Tag.name _tag) root)).
Proof. unfold update_latest, FS.isdir. simpl. by rewrite lookup_delete_eq. Qed.

Lemma delete_preserves_latest_inv (fs : node) (tag : Tag.taglike) (_tag : Tag.t) :
Tag.from_taglike tag = Ok _tag →
valid_name (Tag.name _tag) →
latest_inv fs →
latest_inv (Store_delete fs tag).2.
Proof.
intros Htag Hvalid Hinv. unfold Store_delete. rewrite Htag.
destruct (FS.removetree fs (Tag.path _tag)) as [fs1|e] eqn:Hrm; [|done].
assert (Hwhole : FS.removetree fs [Tag.name _tag] = Ok fs1 →
                 latest_inv (update_latest fs1 _tag).2).
{ intros (root & -> & ->)%removetree_name. rewrite update_latest_name_gone.
  apply latest_inv_Dir, map_Forall_delete. by apply latest_inv_Dir. }
unfold Tag.path in Hrm. destruct _tag as [n [v|]]; cbn [Tag.name Tag.version] in *;
  [|by apply Hwhole].
destruct (String.eqb v "latest") eqn:Hv; [by apply Hwhole|].
destruct (String.eqb v "") eqn:Hempty; [by apply Hwhole|]. clear Hwhole.
apply removetree_version in Hrm as (root & m & m' & -> & Hn & Hmv & ->).
apply latest_inv_Dir in Hinv.
set (fs1 := Dir (<[n := Dir (delete v m)]> root)).
assert (Hd : FS.isdir fs1 [n] = true).
{ unfold FS.isdir. simpl. by rewrite lookup_insert_eq. }
unfold update_latest, Tag.latest_path. cbn [Tag.name Tag.version]. rewrite Hd.
pose proof (from_taglike_name _ Hvalid) as Hparse.
destruct (list_by_name fs1 _ n Hparse Hd) as (vs & items & Hls & HF & _ & _ & Hin).
unfold Store_list. rewrite (from_taglike_truthy _ _ Hparse), Hls.
destruct items as [|item items].
- simpl. unfold FS.removetree, fs1. simpl. rewrite lookup_insert_eq. simpl.
  rewrite delete_insert_eq. apply latest_inv_Dir. by apply map_Forall_delete.
- apply Forall2_cons_inv_r in HF as (w & vs' & _ & _ & ->).
  assert (Hw : ∃ d, delete v m !! w = Some (Dir d)).
  { specialize (Hin w). unfold FS.isdir, fs1 in Hin. simpl in Hin.
    rewrite lookup_insert_eq in Hin.
    destruct (delete v m !! w) as [[|d]|]; [| by eauto |];
      exfalso; (assert (w ∈ w :: vs') as Hel by left); by apply Hin in Hel. }
  destruct Hw as [d Hw].
  assert (Hinv1 : latest_inv fs1).
  { apply latest_inv_Dir, map_Forall_insert_2; [|done]. by eapply pointer_ok_version. }
  simpl length. simpl Nat.eqb. cbv iota.
  destruct (sorted _ (item :: items)) as [|new_latest ?]; [done|].
  destruct (FS.writetext fs1 [n; "latest"] _) as [fs2|e] eqn:Hwr; [|done].
  apply writetext_in_name in Hwr as (root1 & m1 & [= <-] & Hn1 & Hlat & ->).
  rewrite lookup_insert_eq in Hn1. injection Hn1 as <-.
  simpl. rewrite insert_insert_eq.
  apply latest_inv_Dir, map_Forall_insert_2; [|done]. by eapply pointer_ok_linked.
Qed.

Lemma register_preserves_latest_inv (fs : node) (tag : Tag.taglike) (_tag : Tag.t)
  (v : string) (body : fspath → exit_path * gmap string node) :
Tag.from_taglike tag = Ok _tag →
concrete_version _tag v →
latest_inv fs →
latest_inv (Store_register fs tag body).2.
Proof.
intros Htag Hv Hinv. unfold Store_register. rewrite Htag, (path_concrete _ _ Hv).
destruct Hv as (Hv & Hne & Hnonempty). unfold link_latest, Tag.latest_path. rewrite Hv.
destruct (FS.exists_ fs _); [done|].
destruct (FS.makedirs fs _) as [fs1|e] eqn:Hmk; [|done].
apply makedirs_version in Hmk as (root & m & -> & _ & _ & ->).
apply latest_inv_Dir in Hinv.
destruct (body _) as [how entries]. simpl FS.set_entries.
rewrite !lookup_insert_eq, !insert_insert_eq.
set (m2 := <[v := Dir entries]> m).
assert (Hm2 : m2 !! v = Some (Dir entries)) by apply lookup_insert_eq.
destruct (FS.writetext _ _ "") as [fs3|e] eqn:Hw1.
2: { simpl. apply latest_inv_Dir, map_Forall_insert_2; [|done].
     by eapply pointer_ok_version. }
apply writetext_in_name in Hw1 as (root3 & m3 & [= <-] & Hn3 & Hlat & ->).
rewrite lookup_insert_eq in Hn3. injection Hn3 as <-. rewrite insert_insert_eq.
assert (Hfs3 : latest_inv (Dir (<[Tag.name _tag := Dir (<["latest" := File ""]> m2)]> root))).
{ apply latest_inv_Dir, map_Forall_insert_2; [|done]. by eapply pointer_ok_linked. }
destruct (FS.writetext _ _ v) as [fs4|e] eqn:Hw2; [|done].
apply writetext_in_name in Hw2 as (root4 & m4 & [= <-] & Hn4 & _ & ->).
rewrite lookup_insert_eq in Hn4. injection Hn4 as <-.
rewrite !insert_insert_eq.
assert (latest_inv (Dir (<[Tag.name _tag := Dir (<["latest" := File v]> m2)]> root))).
{ apply latest_inv_Dir, map_Forall_insert_2; [|done]. by eapply pointer_ok_linked. }
by destruct how.
Qed.

Lemma delete_sole_version (fs : node) (tag : Tag.taglike) (_tag : Tag.t) (v : string) :
Tag.from_taglike tag = Ok _tag →
valid_name (Tag.name _tag) →
concrete_version _tag v →
FS.isdir fs [Tag.name _tag; v] = true →
(∀ w, FS.isdir fs [Tag.name _tag; w] = true → w = v) →
∃ fs', Store_delete fs tag = (Ok tt, fs') ∧ FS.exists_ fs' [Tag.name _tag] = false.
Proof.
intros Htag Hvalid Hv Hd Hsole. unfold Store_delete. rewrite Htag, (path_concrete _ _ Hv).
unfold FS.isdir in Hd, Hsole. destruct fs as [|root]; [done|]. simpl in Hd, Hsole.
destruct (root !! Tag.name _tag) as [[|m]|] eqn:Hn; try done.
destruct (m !! v) as [[|m']|] eqn:Hmv; try done.
unfold FS.removetree. simpl. rewrite Hn. simpl. rewrite Hmv. simpl.
set (fs1 := Dir (<[Tag.name _tag := Dir (delete v m)]> root)).
assert (Hd1 : FS.isdir fs1 [Tag.name _tag] = true).
{ unfold FS.isdir. simpl. by rewrite lookup_insert_eq. }
unfold update_latest. rewrite Hd1.
pose proof (from_taglike_name _ Hvalid) as Hparse.
destruct (list_by_name fs1 _ _ Hparse Hd1) as (vs & items & Hls & HF & _ & _ & Hin).
unfold Store_list. rewrite (from_taglike_truthy _ _ Hparse), Hls.
destruct vs as [|w vs].
- apply Forall2_nil_inv_l in HF as ->. simpl.
  unfold FS.removetree, fs1. simpl. rewrite lookup_insert_eq. simpl.
  eexists. split; [done|]. unfold FS.exists_. simpl. by rewrite lookup_delete_eq.
- exfalso. assert (Hw : FS.isdir fs1 [Tag.name _tag; w] = true) by (apply Hin; left).
  unfold FS.isdir, fs1 in Hw. simpl in Hw. rewrite lookup_insert_eq in Hw.
  destruct (decide (w = v)) as [->|Hne].
  + by rewrite lookup_delete_eq in Hw.
  + rewrite lookup_delete_ne in Hw by done. by apply Hne, Hsole.
Qed.

(** C9, amended.  For a tag with a valid name the pointer invariant (a
  latest-pointer file exists only in a name directory that holds a
  version directory) is preserved by [delete], and by [register] when the
  tag carries a concrete version; and deleting the only version of a name
  removes the name's directory, pointer file included. *)
Theorem latest_pointer_has_version (fs : node) (tag : Tag.taglike) (_tag : Tag.t) :
Tag.from_taglike tag = Ok _tag →
valid_name (Tag.name _tag) →
latest_inv fs →
latest_inv (Store_delete fs tag).2
∧ (∀ v body, concrete_version _tag v → latest_inv (Store_register fs tag body).2)
∧ (∀ v, concrete_version _tag v →
        FS.isdir fs [Tag.name _tag; v] = true →
        (∀ w, FS.isdir fs [Tag.name _tag; w] = true → w = v) →
        ∃ fs', Store_delete fs tag = (Ok tt, fs')
               ∧ FS.exists_ fs' [Tag.name _tag] = false
               ∧ FS.exists_ fs' (Tag.latest_path _tag) = false).
Proof.
intros Htag Hvalid Hinv. split_and!.
- by apply (delete_preserves_latest_inv fs tag _tag).
- intros v body Hv. by apply (register_preserves_latest_inv fs tag _tag v).
- intros v Hv Hd Hsole.
  destruct (delete_sole_version fs tag _tag v) as (fs' & Hdel & Hgone); try done.
  exists fs'. split_and!; try done.
  unfold FS.exists_, Tag.latest_path in *. simpl in *.
  destruct fs' as [|root']; [done|]. by destruct (root' !! Tag.name _tag).
Qed.
End MutationFacts.

(** ** The layout is kept by [register] and [delete] *)
Section LayoutFacts.
Context {Item : Type} `{StoreItem.t Item}.

Lemma name_layout_version (m : gmap string node) (v : string) (entries : gmap string node) :
  v ≠ "latest" → name_layout (Dir m) → name_layout (Dir (<[v := Dir entries]> m)).
Proof.
  intros Hne Hm. simpl. apply map_Forall_insert_2; [|done].
  simpl. by rewrite eqb_latest_false.
Qed.

Lemma name_layout_linked (m : gmap string node) (text : string) :
  name_layout (Dir m) → name_layout (Dir (<["latest" := File text]> m)).
Proof. intros Hm. simpl. by apply map_Forall_insert_2. Qed.

(** X16.  [register] of a versioned tag with a valid name keeps the store's
    directory layout, whatever the block exits with. *)
Lemma register_preserves_layout (fs : node) (tag : Tag.taglike) (_tag : Tag.t)
    (v : string) (body : fspath → exit_path * gmap string node) :
  Tag.from_taglike tag = Ok _tag →
  valid_name (Tag.name _tag) →
  concrete_version _tag v →
  store_layout fs →
  store_layout (Store_register fs tag body).2.
Proof.
  intros Htag Hvalid Hv Hlay. unfold Store_register. rewrite Htag, (path_concrete _ _ Hv).
  destruct Hv as (Hv & Hne & Hnonempty). unfold link_latest, Tag.latest_path. rewrite Hv.
  destruct (FS.exists_ fs _); [done|].
  destruct (FS.makedirs fs _) as [fs1|e] eqn:Hmk; [|done].
  apply makedirs_version in Hmk as (root & m & -> & Hm & _ & ->).
  assert (Hml : name_layout (Dir m)).
  { destruct Hm as [[_ ->]|Hn]; [apply map_Forall_empty|]. by destruct (Hlay _ _ Hn). }
  destruct (body _) as [how entries]. simpl FS.set_entries.
  rewrite !lookup_insert_eq, !insert_insert_eq.
  set (m2 := <[v := Dir entries]> m).
  assert (Hm2 : name_layout (Dir m2)) by by apply name_layout_version.
  destruct (FS.writetext _ _ "") as [fs3|e] eqn:Hw1.
  2: { simpl. by apply map_Forall_insert_2. }
  apply writetext_in_name in Hw1 as (root3 & m3 & [= <-] & Hn3 & _ & ->).
  rewrite lookup_insert_eq in Hn3. injection Hn3 as <-. rewrite insert_insert_eq.
  assert (Hfs3 : store_layout (Dir (<[Tag.name _tag := Dir (<["latest" := File ""]> m2)]> root))).
  { apply map_Forall_insert_2; [|done]. split; [done|]. by apply name_layout_linked. }
  destruct (FS.writetext _ _ v) as [fs4|e] eqn:Hw2; [|done].
  apply writetext_in_name in Hw2 as (root4 & m4 & [= <-] & Hn4 & _ & ->).
  rewrite lookup_insert_eq in Hn4. injection Hn4 as <-.
  rewrite !insert_insert_eq.
  assert (store_layout (Dir (<[Tag.name _tag := Dir (<["latest" := File v]> m2)]> root))).
  { apply map_Forall_insert_2; [|done]. split; [done|]. by apply name_layout_linked. }
  by destruct how.
Qed.

(** X17.  [delete] of a tag with a valid name keeps the store's directory
    layout. *)
Lemma delete_preserves_layout (fs : node) (tag : Tag.taglike) (_tag : Tag.t) :
  Tag.from_taglike tag = Ok _tag →
  valid_name (Tag.name _tag) →
  store_layout fs →
  store_layout (Store_delete fs tag).2.
Proof.
  intros Htag Hvalid Hlay. unfold Store_delete. rewrite Htag.
  destruct (FS.removetree fs (Tag.path _tag)) as [fs1|e] eqn:Hrm; [|done].
  assert (Hwhole : FS.removetree fs [Tag.name _tag] = Ok fs1 →
                   store_layout (update_latest fs1 _tag).2).
  { intros (root & -> & ->)%removetree_name. rewrite update_latest_name_gone.
    by apply map_Forall_delete. }
  unfold Tag.path in Hrm. destruct _tag as [n [v|]]; cbn [Tag.name Tag.version] in *;
    [|by apply Hwhole].
  destruct (String.eqb v "latest") eqn:Hv; [by apply Hwhole|].
destruct (String.eqb v "") eqn:Hempty; [by apply Hwhole|]. clear Hwhole.
  apply removetree_version in Hrm as (root & m & m' & -> & Hn & Hmv & ->).
  destruct (Hlay _ _ Hn) as [_ Hm].
  assert (Hm1 : name_layout (Dir (delete v m))) by by apply map_Forall_delete.
  set (fs1 := Dir (<[n := Dir (delete v m)]> root)).
  assert (Hlay1 : store_layout fs1) by by apply map_Forall_insert_2.
  unfold update_latest, Tag.latest_path. cbn [Tag.name Tag.version].
  destruct (FS.isdir fs1 [n]); [|done].
  destruct (Store_list fs1 _) as [versions|e]; [|done].
  destruct (Nat.eqb (length versions) 0).
  - destruct (FS.removetree fs1 [n]) as [fs2|e] eqn:Hrm; [|done].
    apply removetree_name in Hrm as (root1 & [= <-] & ->).
    simpl. rewrite delete_insert_eq. by apply map_Forall_delete.
  - destruct (sorted _ versions) as [|new_latest ?]; [done|].
    destruct (FS.writetext fs1 [n; "latest"] _) as [fs2|e] eqn:Hwr; [|done].
    apply writetext_in_name in Hwr as (root1 & m1 & [= <-] & Hn1 & _ & ->).
    rewrite lookup_insert_eq in Hn1. injection Hn1 as <-.
    simpl. rewrite insert_insert_eq.
    apply map_Forall_insert_2; [|done]. split; [done|]. by apply name_layout_linked.
Qed.

End LayoutFacts.

(** ** What [delete] writes into the latest pointer *)
Section RelinkFacts.
Context {Item : Type} `{StoreItem.t Item}.

(** "[tag] (must equal the tag used to construct it)" *)
Hypothesis tag_from_fs : ∀ (t : Tag.t) (d : node), StoreItem.tag (StoreItem.from_fs t d) = t.

Lemma get_item_name (fs : node) (n v : string) (item : Item) :
  _get_item fs (Tag.mk n (Some v)) = Ok item → Tag.name (StoreItem.tag item) = n.
Proof.
  unfold _get_item. destruct (FS.opendir fs _) as [d|e]; [|done]. simpl.
  intros [= <-]. by rewrite tag_from_fs.
Qed.

(** Whenever a version of a name is deleted and another one remains, the
    latest pointer of the name ends up holding the name. *)
Lemma delete_relinks_name (fs : node) (tag : Tag.taglike) (_tag : Tag.t) (v w : string) :
  Tag.from_taglike tag = Ok _tag →
  valid_name (Tag.name _tag) →
  concrete_version _tag v →
  store_layout fs →
  FS.isdir fs [Tag.name _tag; v] = true →
  FS.isdir fs [Tag.name _tag; w] = true →
  w ≠ v →
  ∃ fs', Store_delete fs tag = (Ok tt, fs')
         ∧ FS.readtext fs' (Tag.latest_path _tag) = Ok (Tag.name _tag).
Proof.
  intros Htag Hvalid Hv Hlay Hdv Hdw Hne. unfold Store_delete.
  rewrite Htag, (path_concrete _ _ Hv).
  unfold FS.isdir in Hdv, Hdw. destruct fs as [|root]; [done|]. simpl in Hdv, Hdw.
  destruct (root !! Tag.name _tag) as [[|m]|] eqn:Hn; try done.
  destruct (Hlay _ _ Hn) as [_ Hm].
  destruct (m !! v) as [[|m']|] eqn:Hmv; try done.
  unfold FS.removetree. simpl. rewrite Hn. simpl. rewrite Hmv. simpl.
  set (fs1 := Dir (<[Tag.name _tag := Dir (delete v m)]> root)).
  assert (Hd1 : FS.isdir fs1 [Tag.name _tag] = true).
  { unfold FS.isdir. simpl. by rewrite lookup_insert_eq. }
  unfold update_latest, Tag.latest_path. rewrite Hd1.
  pose proof (from_taglike_name _ Hvalid) as Hparse.
  destruct (list_by_name fs1 _ _ Hparse Hd1) as (vs & items & Hls & HF & _ & _ & Hin).
  unfold Store_list. rewrite (from_taglike_truthy _ _ Hparse), Hls.
  assert (Hw : w ∈ vs).
  { apply Hin. unfold FS.isdir, fs1. simpl.
    rewrite lookup_insert_eq, lookup_delete_ne by done. exact Hdw. }
  destruct items as [|item items].
  { apply Forall2_nil_inv_r in HF as ->. by apply elem_of_nil in Hw. }
  simpl length. simpl Nat.eqb. cbv iota.
  set (by_time := λ a b : Item, StoreItem.creation_time a <? StoreItem.creation_time b).
  pose proof (sorted_Permutation by_time (item :: items)) as Hperm.
  destruct (sorted by_time (item :: items)) as [|new_latest rest] eqn:Hsorted.
  { by apply Permutation_nil_l in Hperm. }
  assert (Hnew : new_latest ∈ item :: items) by (rewrite <- Hperm; left).
  apply list_elem_of_lookup in Hnew as [i Hi].
  destruct (Forall2_lookup_r _ _ _ _ _ HF Hi) as (v' & _ & Hitem).
  rewrite (get_item_name _ _ _ _ Hitem).
  unfold FS.writetext, fs1. simpl. rewrite lookup_insert_eq. simpl.
  assert (Hlatest : ∀ d, delete v m !! "latest" ≠ Some (Dir d)).
  { intros d Hl. apply lookup_delete_Some in Hl as [_ Hl]. by specialize (Hm _ _ Hl). }
  destruct (delete v m !! "latest") as [[text|d]|] eqn:Hl; [|by destruct (Hlatest d)|];
    simpl; (eexists; split; [done|]); unfold FS.readtext; simpl;
    by rewrite !lookup_insert_eq.
Qed.

End RelinkFacts.

(** ** The store at work on concrete stores *)

Example get_after_first_register :
  Store_get Bento.one_version (Tag.Str "demo")
  = Ok (Bento.mk (Tag.mk "demo" (Some "1")) 100).
Proof. vm_compute. reflexivity. Qed.

Example get_and_list_after_second_register :
  Store_get Bento.two_versions (Tag.Str "demo")
  = Ok (Bento.mk (Tag.mk "demo" (Some "2")) 200)
  ∧ Store_list Bento.two_versions (Some (Tag.Str "demo"))
    = Ok [Bento.mk (Tag.mk "demo" (Some "1")) 100; Bento.mk (Tag.mk "demo" (Some "2")) 200].
Proof. split; vm_compute; reflexivity. Qed.

Example get_exact_next_to_longer_version :
  Store_get Bento.one_and_ten (Tag.Str "demo:1")
  = Ok (Bento.mk (Tag.mk "demo" (Some "1")) 200).
Proof. vm_compute. reflexivity. Qed.

Example get_of_unknown_name :
  Store_get (Item := Bento.t) Bento.empty_store (Tag.Str "ghost")
  = Raise (NotFound (NoItemsWithName "Bento" "ghost")).
Proof. vm_compute. reflexivity. Qed.

(** C1.  With [demo:1] (created at 100) and [demo:2] (created at 200) in
    the store, [delete("demo:2")] leaves [demo:1] as the remaining version
    of least creation time, but the latest pointer then holds the name
    ["demo"], not the version ["1"], and [get("demo")] no longer finds the
    item. *)
Theorem delete_relinks_name_not_version :
  Store_list (Bento.delete Bento.two_versions "demo:2") (Some (Tag.Str "demo"))
  = Ok [Bento.mk (Tag.mk "demo" (Some "1")) 100]
  ∧ FS.readtext (Bento.delete Bento.two_versions "demo:2") ["demo"; "latest"] = Ok "demo"
  ∧ FS.readtext (Bento.delete Bento.two_versions "demo:2") ["demo"; "latest"] ≠ Ok "1"
  ∧ Store_get (Item := Bento.t) (Bento.delete Bento.two_versions "demo:2") (Tag.Str "demo")
    = Raise (NotFound (ItemNotFound "Bento" "demo")).
Proof. split_and!; [vm_compute; reflexivity.. | | vm_compute; reflexivity]. by vm_compute. Qed.

(** C2.  With [demo:1a] and [demo:1b] in the store and no [demo:1],
    [get("demo:1")] raises the "multiple versions matched" exception, but
    the list it carries holds the characters of the matched versions, not
    the versions. *)
Theorem ambiguous_get_carries_characters :
  Store_get (Item := Bento.t) Bento.shared_prefix (Tag.Str "demo:1")
  = Raise (BentoMLException (MultipleVersionsMatched (Some "1") ["1"; "a"; "1"; "b"]))
  ∧ FS.glob Bento.shared_prefix ["demo"; "1"] = ["1a"; "1b"]
  ∧ "1a" ∉ ["1"; "a"; "1"; "b"].
Proof.
  split_and!; [vm_compute; reflexivity.. |].
  intros Hin. repeat (apply elem_of_cons in Hin as [Hin|Hin]; [discriminate|]).
  by apply elem_of_nil in Hin.
Qed.

(** ** The theorems at concrete stores *)

Lemma only_ten_versions (x : string) :
  FS.isdir Bento.only_ten ["demo"; x] = true → x = "10".
Proof.
  assert (Hfs : Bento.only_ten
                = Dir {[ "demo" := Dir (<[ "latest" := File "10" ]>
                                          {[ "10" := Dir {[ "created" := File "100" ]} ]}) ]})
    by (vm_compute; reflexivity).
  rewrite Hfs. unfold FS.isdir. simpl. rewrite lookup_singleton_eq.
  destruct (decide (x = "latest")) as [->|Hl]; [by rewrite lookup_insert_eq|].
  rewrite lookup_insert_ne by done.
  destruct (decide (x = "10")) as [->|Hx]; [done|]. by rewrite lookup_singleton_ne.
Qed.

Lemma one_version_versions (x : string) :
  FS.isdir Bento.one_version ["demo"; x] = true → x = "1".
Proof.
  assert (Hfs : Bento.one_version
                = Dir {[ "demo" := Dir (<[ "latest" := File "1" ]>
                                          {[ "1" := Dir {[ "created" := File "100" ]} ]}) ]})
    by (vm_compute; reflexivity).
  rewrite Hfs. unfold FS.isdir. simpl. rewrite lookup_singleton_eq.
  destruct (decide (x = "latest")) as [->|Hl]; [by rewrite lookup_insert_eq|].
  rewrite lookup_insert_ne by done.
  destruct (decide (x = "1")) as [->|Hx]; [done|]. by rewrite lookup_singleton_ne.
Qed.

Lemma get_exact_before_prefix_witness :
  Tag.from_taglike (Tag.Str "demo:1") = Ok (Tag.mk "demo" (Some "1"))
  ∧ concrete_version (Tag.mk "demo" (Some "1")) "1"
  ∧ store_layout Bento.only_ten
  ∧ ∃ d, FS.opendir Bento.only_ten ["demo"; "10"] = Ok d
         ∧ Store_get Bento.only_ten (Tag.Str "demo:1")
           = Ok (Bento.from_fs (Tag.mk "demo" (Some "10")) d).
Proof.
  assert (Htag : Tag.from_taglike (Tag.Str "demo:1") = Ok (Tag.mk "demo" (Some "1")))
    by reflexivity.
  assert (Hv : concrete_version (Tag.mk "demo" (Some "1")) "1")
    by (split_and!; [reflexivity | discriminate | discriminate]).
  assert (Hlay : store_layout Bento.only_ten)
    by (apply (bool_decide_unpack _); vm_compute; exact I).
  split_and!; [done.. |].
  assert (Hone : ∀ x, String.prefix "1" x = true
                      ∧ FS.isdir Bento.only_ten ["demo"; x] = true ↔ x = "10").
  { intros x. split.
    - intros [_ Hx]. by apply only_ten_versions.
    - intros ->. split; vm_compute; reflexivity. }
  exact (proj2 (get_exact_before_prefix (Item := Bento.t) Bento.only_ten (Tag.Str "demo:1")
                  (Tag.mk "demo" (Some "1")) "1" Htag Hv Hlay)
           (eq_refl : FS.isdir Bento.only_ten ["demo"; "1"] = false) "10" Hone).
Defined.

Lemma get_NotFound_iff_witness :
  Tag.from_taglike (Tag.Str "demo:2") = Ok (Tag.mk "demo" (Some "2"))
  ∧ Some "2" ≠ Some ""
  ∧ Store_get (Item := Bento.t) Bento.one_version (Tag.Str "demo:2")
    = Raise (NotFound (ItemNotFound "Bento" "demo:2")).
Proof.
  assert (Hne : Some "2" ≠ Some "") by discriminate.
  split_and!; [reflexivity | done |].
  apply (get_NotFound_iff (Item := Bento.t) Bento.one_version (Tag.Str "demo:2")
           (Tag.mk "demo" (Some "2")) _ eq_refl Hne).
  right. exists "2". split_and!; [left; split; [reflexivity | discriminate]
                                  | discriminate | reflexivity | | reflexivity].
  intros x Hp. destruct (FS.isdir Bento.one_version ["demo"; x]) eqn:Hd; [|done].
  apply one_version_versions in Hd as ->. discriminate.
Defined.

(** C7, as stated, fails: after [register("demo")], a tag without version,
    the pointer file of [demo] is empty and [demo] has no version directory,
    so the working version has neither an exact nor a prefix match among
    them; yet [get("demo")] finds the path [demo/], the name's own
    directory, and returns an item built from it. *)
Lemma get_with_empty_pointer_returns :
  FS.readtext (Store_register Bento.empty_store (Tag.Str "demo") Bento.leave_empty).2
              ["demo"; "latest"] = Ok ""
  ∧ Store_list (Item := Bento.t)
               (Store_register Bento.empty_store (Tag.Str "demo") Bento.leave_empty).2
               (Some (Tag.Str "demo")) = Ok []
  ∧ Store_get (Item := Bento.t)
              (Store_register Bento.empty_store (Tag.Str "demo") Bento.leave_empty).2
              (Tag.Str "demo")
    = Ok (Bento.mk (Tag.mk "demo" (Some "")) 0)
  ∧ ∀ msg, Store_get (Item := Bento.t)
                     (Store_register Bento.empty_store (Tag.Str "demo") Bento.leave_empty).2
                     (Tag.Str "demo")
           ≠ Raise (NotFound msg).
Proof.
  assert (Hget : Store_get (Item := Bento.t)
                   (Store_register Bento.empty_store (Tag.Str "demo") Bento.leave_empty).2
                   (Tag.Str "demo")
                 = Ok (Bento.mk (Tag.mk "demo" (Some "")) 0)) by (vm_compute; reflexivity).
  split_and!; [vm_compute; reflexivity.. | done |]. intros msg. by rewrite Hget.
Qed.


Lemma list_empty_selection_witness :
  Tag.from_taglike (Tag.Str "demo:7") = Ok (Tag.mk "demo" (Some "7"))
  ∧ Store_list (Item := Bento.t) Bento.one_version (Some (Tag.Str "demo:7")) = Ok [].
Proof.
  split; [reflexivity|].
  apply (proj2 (list_empty_selection (Item := Bento.t) Bento.one_version (Tag.Str "demo:7")
                  (Tag.mk "demo" (Some "7")) eq_refl)).
  - by exists "7".
  - vm_compute. reflexivity.
Defined.

(** C3, as stated, fails: once the last version of [demo] is deleted, the
    name's directory is gone and [list("demo")] raises the backend's
    [ResourceNotFound] instead of returning the empty sequence. *)
Lemma list_of_deleted_name_raises :
  FS.exists_ (Bento.delete Bento.one_version "demo:1") ["demo"] = false
  ∧ Store_list (Item := Bento.t) (Bento.delete Bento.one_version "demo:1")
                (Some (Tag.Str "demo"))
    = Raise (ResourceNotFound ["demo"])
  ∧ Store_list (Item := Bento.t) (Bento.delete Bento.one_version "demo:1")
                (Some (Tag.Str "demo"))
    ≠ Ok [].
Proof. split_and!; [vm_compute; reflexivity.. | by vm_compute]. Qed.

Lemma register_existing_is_rejected_witness :
  Tag.from_taglike (Tag.Str "demo:1") = Ok (Tag.mk "demo" (Some "1"))
  ∧ FS.exists_ Bento.one_version (Tag.path (Tag.mk "demo" (Some "1"))) = true
  ∧ Store_register Bento.one_version (Tag.Str "demo:1") (Bento.populate "300" NormalCompletion)
    = (Raise (BentoMLException (ItemAlreadyExists "demo:1")), Bento.one_version).
Proof.
  split_and!; [reflexivity | vm_compute; reflexivity |].
  apply (register_existing_is_rejected Bento.one_version (Tag.Str "demo:1")
           (Tag.mk "demo" (Some "1"))); [reflexivity | vm_compute; reflexivity].
Defined.

Lemma delete_missing_version_witness :
  Tag.from_taglike (Tag.Str "demo:9") = Ok (Tag.mk "demo" (Some "9"))
  ∧ FS.exists_ Bento.one_version (Tag.path (Tag.mk "demo" (Some "9"))) = false
  ∧ Store_delete (Item := Bento.t) Bento.one_version (Tag.Str "demo:9")
    = (Raise (ResourceNotFound ["demo"; "9"]), Bento.one_version).
Proof.
  split_and!; [reflexivity | vm_compute; reflexivity |].
  apply (delete_missing_version (Item := Bento.t) Bento.one_version (Tag.Str "demo:9")
           (Tag.mk "demo" (Some "9"))); [reflexivity | vm_compute; reflexivity].
Defined.

(** C4, as stated, fails: [register("demo")], a tag without version, runs
    its [finally] block when the caller's block raises, but there is no
    version to write: the pointer file is left empty and the [TypeError] of
    writing [None] replaces the caller's error. *)
Lemma register_without_version_links_nothing :
  Tag.from_taglike (Tag.Str "demo") = Ok (Tag.mk "demo" None)
  ∧ Store_register Bento.empty_store (Tag.Str "demo")
                   (Bento.populate "100" (CallerRaised "disk full"))
    = (Raise TypeError,
       Dir {[ "demo" := Dir (<[ "latest" := File "" ]> {[ "created" := File "100" ]}) ]})
  ∧ FS.readtext (Store_register Bento.empty_store (Tag.Str "demo")
                   (Bento.populate "100" (CallerRaised "disk full"))).2
                ["demo"; "latest"] = Ok "".
Proof. split_and!; vm_compute; reflexivity. Qed.

Lemma register_links_latest_witness :
  Tag.from_taglike (Tag.Str "demo:2") = Ok (Tag.mk "demo" (Some "2"))
  ∧ concrete_version (Tag.mk "demo" (Some "2")) "2"
  ∧ store_layout Bento.one_version
  ∧ FS.exists_ Bento.one_version (Tag.path (Tag.mk "demo" (Some "2"))) = false
  ∧ ∃ fs', Store_register Bento.one_version (Tag.Str "demo:2")
                          (Bento.populate "" (CallerRaised "disk full"))
           = (Raise (CallerError "disk full"), fs')
           ∧ FS.readtext fs' ["demo"; "latest"] = Ok "2".
Proof.
  assert (Hv : concrete_version (Tag.mk "demo" (Some "2")) "2")
    by (split_and!; [reflexivity | discriminate | discriminate]).
  assert (Hlay : store_layout Bento.one_version)
    by (apply (bool_decide_unpack _); vm_compute; exact I).
  split_and!; [reflexivity | done | done | vm_compute; reflexivity |].
  apply (register_links_latest Bento.one_version (Tag.Str "demo:2")
           (Tag.mk "demo" (Some "2")) "2" (Bento.populate "" (CallerRaised "disk full"))
           eq_refl Hv Hlay).
  vm_compute. reflexivity.
Defined.

Lemma latest_inv_one_version : latest_inv Bento.one_version.
Proof.
  apply (register_preserves_latest_inv _ _ (Tag.mk "demo" (Some "1")) "1");
    [reflexivity | split_and!; [reflexivity | discriminate | discriminate] | apply latest_inv_empty].
Qed.

Lemma latest_pointer_has_version_witness :
  Tag.from_taglike (Tag.Str "demo:1") = Ok (Tag.mk "demo" (Some "1"))
  ∧ valid_name "demo"
  ∧ latest_inv Bento.one_version
  ∧ latest_inv (Store_delete (Item := Bento.t) Bento.one_version (Tag.Str "demo:1")).2
  ∧ ∀ body, latest_inv (Store_register Bento.one_version (Tag.Str "demo:1") body).2.
Proof.
  assert (Hname : valid_name "demo") by (split; [discriminate | reflexivity]).
  pose proof latest_inv_one_version as Hinv.
  destruct (latest_pointer_has_version (Item := Bento.t) Bento.one_version (Tag.Str "demo:1")
              (Tag.mk "demo" (Some "1")) eq_refl Hname Hinv) as (Hdel & Hreg & _).
  split_and!; [reflexivity | done | done | done |].
  intros body. apply (Hreg "1"). split_and!; [reflexivity | discriminate | discriminate].
Defined.

(** C9, as stated, fails: [register("demo")], a tag without version, on
    the empty store creates the directory [demo] and, in its [finally]
    block, the file [demo/latest], before writing [None] raises; the
    pointer file then exists in a name directory without any version. *)
Lemma register_without_version_breaks_latest_inv :
  latest_inv Bento.empty_store
  ∧ (Store_register Bento.empty_store (Tag.Str "demo") Bento.leave_empty).1 = Raise TypeError
  ∧ ¬ latest_inv (Store_register Bento.empty_store (Tag.Str "demo") Bento.leave_empty).2.
Proof.
  split_and!; [apply latest_inv_empty | vm_compute; reflexivity |].
  intros Hinv. destruct (Hinv "demo") as [v Hv]; [vm_compute; reflexivity|].
  assert (Hrun : (Store_register Bento.empty_store (Tag.Str "demo") Bento.leave_empty).2
                 = Dir {[ "demo" := Dir {[ "latest" := File "" ]} ]})
    by (vm_compute; reflexivity).
  rewrite Hrun in Hv. unfold FS.isdir in Hv. simpl in Hv.
  rewrite lookup_singleton_eq in Hv.
  destruct (decide (v = "latest")) as [->|Hne].
  - by rewrite lookup_singleton_eq in Hv.
  - by rewrite lookup_singleton_ne in Hv.
Qed.

(** ** Further properties of the store *)

(** *** What a completed acquisition leaves behind *)

(** The backend after [register] of a new versioned tag in a store: the
    name's directory with the new version directory, as the block left it,
    and the pointer. *)
Lemma register_final_state (fs : node) (tag : Tag.taglike) (_tag : Tag.t) (v : string)
    (body : fspath → exit_path * gmap string node) :
  Tag.from_taglike tag = Ok _tag →
  concrete_version _tag v →
  store_layout fs →
  FS.exists_ fs (Tag.path _tag) = false →
  ∃ root m,
    fs = Dir root
    ∧ (root !! Tag.name _tag = None ∧ m = ∅ ∨ root !! Tag.name _tag = Some (Dir m))
    ∧ m !! v = None
    ∧ Store_register fs tag body
      = (exit_result (body [Tag.name _tag; v]).1,
         Dir (<[Tag.name _tag :=
                  Dir (<["latest" := File v]> (<[v := Dir (body [Tag.name _tag; v]).2]> m))]>
                root)).
Proof.
  intros Htag Hv Hlay Hex. unfold Store_register. rewrite Htag, Hex.
  rewrite (path_concrete _ _ Hv) in *. destruct Hv as (Hv & Hne & Hnonempty).
  destruct (FS.makedirs fs _) as [fs1|e] eqn:Hmk.
  2: { exfalso. destruct fs as [|root]; [done|]. unfold FS.makedirs, FS.exists_ in *.
       simpl in *. destruct (root !! Tag.name _tag) as [x|] eqn:Hn; [|done].
       destruct (Hlay _ _ Hn) as [_ Hl]. destruct x as [|m]; [done|]. simpl in *.
       by destruct (m !! v). }
  apply makedirs_version in Hmk as (root & m & -> & Hm & Hmv & ->).
  exists root, m. split_and!; [done..|].
  assert (Hml : name_layout (Dir m)).
  { destruct Hm as [[_ ->]|Hn]; [apply map_Forall_empty|]. by destruct (Hlay _ _ Hn). }
  destruct (body _) as [how entries]. simpl FS.set_entries.
  rewrite !lookup_insert_eq, !insert_insert_eq.
  unfold link_latest, Tag.latest_path, FS.writetext. rewrite Hv. simpl.
  rewrite !lookup_insert_eq. simpl.
  rewrite (lookup_insert_ne _ v "latest") by done.
  assert (Hlat : ∀ d, m !! "latest" ≠ Some (Dir d)).
  { intros d Hd. by specialize (Hml _ _ Hd). }
  destruct (m !! "latest") as [[text|d]|] eqn:Hl; [|by destruct (Hlat d)|]; simpl.
  all: repeat (rewrite ?lookup_insert_eq; simpl).
  all: by rewrite !insert_insert_eq.
Qed.

Section AfterRegister.
Context {Item : Type} `{StoreItem.t Item}.

(** X1.  After [register] of a new versioned tag in a store, however the
    block exits, [get] of that tag and [get] of the bare name both return
    the item built from the directory as the block left it. *)
Theorem get_after_register (fs : node) (tag : Tag.taglike) (_tag : Tag.t) (v : string)
    (body : fspath → exit_path * gmap string node) (unversioned : Tag.taglike) :
  Tag.from_taglike tag = Ok _tag →
  concrete_version _tag v →
  store_layout fs →
  FS.exists_ fs (Tag.path _tag) = false →
  Tag.from_taglike unversioned = Ok (Tag.mk (Tag.name _tag) None) →
  Store_get (Store_register fs tag body).2 tag
  = Ok (StoreItem.from_fs _tag (Dir (body (Tag.path _tag)).2))
  ∧ Store_get (Store_register fs tag body).2 unversioned
    = Ok (StoreItem.from_fs (Tag.mk (Tag.name _tag) (Some v)) (Dir (body (Tag.path _tag)).2)).
Proof.
  intros Htag Hv Hlay Hex Hun.
  destruct (register_final_state fs tag _tag v body Htag Hv Hlay Hex)
    as (root & m & -> & _ & _ & ->).
  rewrite (path_concrete _ _ Hv). destruct Hv as (Hv & Hne & Hnonempty). simpl. split.
  - unfold Store_get. rewrite Htag. simpl.
    rewrite (resolve_concrete _ _ v) by done. simpl.
    unfold get_version, _get_item, FS.exists_, FS.opendir.
    rewrite (path_concrete _ v) by done. simpl.
    rewrite lookup_insert_eq, lookup_insert_ne, lookup_insert_eq by done. done.
  - unfold Store_get. rewrite Hun. simpl.
    unfold resolve_latest, FS.readtext, Tag.latest_path. simpl.
    rewrite !lookup_insert_eq. simpl.
    unfold get_version, _get_item, FS.exists_, FS.opendir, Tag.path. simpl.
    rewrite eqb_latest_false by done. rewrite (proj2 (String.eqb_neq v "") Hnonempty). simpl.
    rewrite lookup_insert_eq, lookup_insert_ne, lookup_insert_eq by done. done.
Qed.

End AfterRegister.

Section Composition.
Context {Item : Type} `{StoreItem.t Item}.

(** X2.  Once a versioned tag has been registered, registering it again
    raises the "already exists" exception and changes nothing. *)
Theorem register_twice_is_rejected (fs : node) (tag : Tag.taglike) (_tag : Tag.t) (v : string)
    (body again : fspath → exit_path * gmap string node) :
  Tag.from_taglike tag = Ok _tag →
  concrete_version _tag v →
  store_layout fs →
  FS.exists_ fs (Tag.path _tag) = false →
  Store_register (Store_register fs tag body).2 tag again
  = (Raise (BentoMLException (ItemAlreadyExists (Tag.to_string _tag))),
     (Store_register fs tag body).2).
Proof.
  intros Htag Hv Hlay Hex.
  destruct (register_final_state fs tag _tag v body Htag Hv Hlay Hex)
    as (root & m & -> & _ & _ & ->).
  simpl. unfold Store_register at 1. rewrite Htag, (path_concrete _ _ Hv).
  destruct Hv as (Hv & Hne & Hnonempty). unfold FS.exists_. simpl.
  by rewrite lookup_insert_eq, lookup_insert_ne, lookup_insert_eq.
Qed.

(** X3.  Registering the first version of a new name and then deleting
    that tag gives back exactly the backend one started from. *)
Theorem register_then_delete_restores (fs : node) (tag : Tag.taglike) (_tag : Tag.t)
    (v : string) (body : fspath → exit_path * gmap string node) :
  Tag.from_taglike tag = Ok _tag →
  valid_name (Tag.name _tag) →
  concrete_version _tag v →
  store_layout fs →
  FS.exists_ fs [Tag.name _tag] = false →
  Store_delete (Store_register fs tag body).2 tag = (Ok tt, fs).
Proof.
  intros Htag Hvalid Hv Hlay Hnew.
  assert (Hex : FS.exists_ fs (Tag.path _tag) = false).
  { rewrite (path_concrete _ _ Hv). unfold FS.exists_ in *. destruct fs as [|root]; [done|].
    simpl in *. by destruct (root !! Tag.name _tag). }
  destruct (register_final_state fs tag _tag v body Htag Hv Hlay Hex)
    as (root & m & -> & Hm & _ & ->).
  assert (Hn : root !! Tag.name _tag = None).
  { unfold FS.exists_ in Hnew. simpl in Hnew. by destruct (root !! Tag.name _tag). }
  destruct Hm as [[_ ->]|Hm]; [|congruence].
  set (entries := (body [Tag.name _tag; v]).2). simpl.
  unfold Store_delete. rewrite Htag, (path_concrete _ _ Hv). destruct Hv as (Hv & Hne & Hnonempty).
  unfold FS.removetree. simpl. rewrite lookup_insert_eq. simpl.
  rewrite lookup_insert_ne, lookup_insert_eq by done. simpl.
  rewrite insert_insert_eq.
  set (left := delete v (<["latest" := File v]> (<[v := Dir entries]> ∅)) : gmap string node).
  set (fs1 := Dir (<[Tag.name _tag := Dir left]> root)).
  assert (Hd1 : FS.isdir fs1 [Tag.name _tag] = true).
  { unfold FS.isdir. simpl. by rewrite lookup_insert_eq. }
  unfold update_latest. rewrite Hd1.
  pose proof (from_taglike_name _ Hvalid) as Hparse.
  destruct (list_by_name fs1 _ _ Hparse Hd1) as (vs & items & Hls & HF & _ & _ & Hin).
  unfold Store_list. rewrite (from_taglike_truthy _ _ Hparse), Hls.
  destruct vs as [|w vs].
  - apply Forall2_nil_inv_l in HF as ->. simpl.
    unfold FS.removetree, fs1. simpl. rewrite lookup_insert_eq. simpl.
    by rewrite delete_insert_eq, delete_id.
  - exfalso. assert (Hw : FS.isdir fs1 [Tag.name _tag; w] = true) by (apply Hin; left).
    unfold FS.isdir, fs1, left in Hw. simpl in Hw. rewrite lookup_insert_eq in Hw.
    destruct (decide (w = v)) as [->|Hwv]; [by rewrite lookup_delete_eq in Hw|].
    rewrite lookup_delete_ne in Hw by done.
    destruct (decide (w = "latest")) as [->|Hwl]; [by rewrite lookup_insert_eq in Hw|].
    by rewrite !lookup_insert_ne, lookup_empty in Hw.
Qed.

End Composition.

(** *** What the mutations touch *)

Lemma makedirs_under (fs fs1 : node) (n : string) (p : fspath) :
  FS.makedirs fs (n :: p) = Ok fs1 →
  ∃ root e, fs = Dir root ∧ fs1 = Dir (<[n := e]> root).
Proof.
  unfold FS.makedirs. destruct fs as [|root]; [done|]. simpl.
  destruct (root !! n) as [x|].
  - destruct (FS.makedirs_from _ x p) as [x'|]; [|done]. simpl. intros [= <-]. eauto.
  - intros [= <-]. eauto.
Qed.

Lemma set_entries_under (fs : node) (n : string) (p : fspath) (new : gmap string node) :
  FS.set_entries fs (n :: p) new = fs
  ∨ ∃ root e, fs = Dir root ∧ FS.set_entries fs (n :: p) new = Dir (<[n := e]> root).
Proof.
  destruct fs as [|root]; [by left|]. simpl.
  destruct (root !! n) as [x|]; [right; eauto|by left].
Qed.

Lemma writetext_under (fs fs2 : node) (n c text : string) :
  FS.writetext fs [n; c] text = Ok fs2 →
  ∃ root e, fs = Dir root ∧ fs2 = Dir (<[n := e]> root).
Proof. intros (root & m & -> & _ & _ & ->)%writetext_in_name. eauto. Qed.

Lemma removetree_under (fs fs1 : node) (n : string) (p : fspath) :
  FS.removetree fs (n :: p) = Ok fs1 →
  ∃ root, fs = Dir root ∧ (fs1 = Dir (delete n root) ∨ ∃ e, fs1 = Dir (<[n := e]> root)).
Proof.
  unfold FS.removetree. destruct fs as [|root]; [by destruct p|]. simpl.
  destruct p as [|c p].
  - destruct (root !! n) as [[|m]|]; try done. intros [= <-]. eauto.
  - destruct (root !! n) as [x|]; [|done].
    destruct (FS.removetree_from _ x (c :: p)) as [x'|]; [|done]. simpl.
    intros [= <-]. eauto.
Qed.

Section Frame.
Context {Item : Type} `{StoreItem.t Item}.

(** The three ways [update_latest] can leave the backend. *)
Lemma update_latest_cases (fs1 : node) (_tag : Tag.t) :
  (update_latest fs1 _tag).2 = fs1
  ∨ FS.removetree fs1 [Tag.name _tag] = Ok (update_latest fs1 _tag).2
  ∨ ∃ text, FS.writetext fs1 [Tag.name _tag; "latest"] text = Ok (update_latest fs1 _tag).2.
Proof.
  unfold update_latest, Tag.latest_path.
  destruct (FS.isdir fs1 _); [|by left].
  destruct (Store_list fs1 _) as [versions|e]; [|by left].
  destruct (Nat.eqb (length versions) 0).
  - destruct (FS.removetree fs1 _) as [fs2|e]; [right; by left|by left].
  - destruct (sorted _ versions) as [|new_latest ?]; [by left|].
    destruct (FS.writetext fs1 _ _) as [fs2|e] eqn:Hw; [|by left].
    right. right. eauto.
Qed.

(** X4.  [delete], whatever its outcome, leaves the subtree of every other
    name as it was. *)
Theorem delete_leaves_other_names (fs : node) (tag : Tag.taglike) (_tag : Tag.t)
    (other : string) :
  Tag.from_taglike tag = Ok _tag →
  other ≠ Tag.name _tag →
  FS.lookup (Store_delete fs tag).2 [other] = FS.lookup fs [other].
Proof.
  intros Htag Hne. unfold Store_delete. rewrite Htag.
  destruct (FS.removetree fs (Tag.path _tag)) as [fs1|e] eqn:Hrm; [|done].
  assert (Hp : ∃ p, Tag.path _tag = Tag.name _tag :: p).
  { unfold Tag.path. destruct (Tag.version _tag) as [v|]; [|by eauto].
    destruct (String.eqb v "latest"); [by eauto|]. destruct (String.eqb v ""); eauto. }
  destruct Hp as [p Hp]. rewrite Hp in Hrm.
  apply removetree_under in Hrm as (root & -> & Hfs1).
  assert (H1 : FS.lookup fs1 [other] = FS.lookup (Dir root) [other]).
  { destruct Hfs1 as [->|[e ->]]; simpl;
      [by rewrite lookup_delete_ne | by rewrite lookup_insert_ne]. }
  rewrite <- H1.
  destruct (update_latest_cases fs1 _tag) as [->|[Hr|[text Hw]]]; [done| |].
  - apply removetree_under in Hr as (root1 & -> & [->|[e ->]]); simpl;
      [by rewrite lookup_delete_ne | by rewrite lookup_insert_ne].
  - apply writetext_under in Hw as (root1 & e & -> & ->). simpl.
    by rewrite lookup_insert_ne.
Qed.

(** X5.  [register], whatever its outcome and whatever the block does,
    leaves the subtree of every other name as it was. *)
Theorem register_leaves_other_names (fs : node) (tag : Tag.taglike) (_tag : Tag.t)
    (body : fspath → exit_path * gmap string node) (other : string) :
  Tag.from_taglike tag = Ok _tag →
  other ≠ Tag.name _tag →
  FS.lookup (Store_register fs tag body).2 [other] = FS.lookup fs [other].
Proof.
  intros Htag Hne. unfold Store_register. rewrite Htag.
  destruct (FS.exists_ fs _); [done|].
  destruct (FS.makedirs fs (Tag.path _tag)) as [fs1|e] eqn:Hmk; [|done].
  assert (Hp : ∃ p, Tag.path _tag = Tag.name _tag :: p).
  { unfold Tag.path. destruct (Tag.version _tag) as [v|]; [|by eauto].
    destruct (String.eqb v "latest"); [by eauto|]. destruct (String.eqb v ""); eauto. }
  destruct Hp as [p Hp]. rewrite Hp in *.
  apply makedirs_under in Hmk as (root & e & -> & ->).
  destruct (body _) as [how entries].
  set (fs1 := Dir (<[Tag.name _tag := e]> root)).
  assert (H1 : FS.lookup fs1 [other] = FS.lookup (Dir root) [other]).
  { simpl. by rewrite lookup_insert_ne. }
  set (fs2 := FS.set_entries fs1 (Tag.name _tag :: p) entries).
  assert (H2 : FS.lookup fs2 [other] = FS.lookup (Dir root) [other]).
  { rewrite <- H1. unfold fs2.
    destruct (set_entries_under fs1 (Tag.name _tag) p entries) as [->|(r & x & Hr & ->)];
      [done|]. rewrite Hr. simpl. by rewrite lookup_insert_ne. }
  rewrite <- H2. clearbody fs2. clear H1 H2 fs1.
  unfold link_latest, Tag.latest_path.
  destruct (FS.writetext fs2 _ "") as [fs3|?] eqn:Hw1; [|done].
  apply writetext_under in Hw1 as (r3 & x3 & -> & ->).
  destruct (Tag.version _tag) as [v|].
  - destruct (FS.writetext _ _ v) as [fs4|?] eqn:Hw2.
    + apply writetext_under in Hw2 as (r4 & x4 & [= <-] & ->).
      destruct how; simpl; by rewrite !lookup_insert_ne.
    + simpl. by rewrite lookup_insert_ne.
  - simpl. by rewrite lookup_insert_ne.
Qed.

End Frame.

Section Versions.
Context {Item : Type} `{StoreItem.t Item}.

(** X6.  [register] of a versioned tag leaves every other version
    directory of the same name, with all its contents, as it was. *)
Theorem register_leaves_other_versions (fs : node) (tag : Tag.taglike) (_tag : Tag.t)
    (v : string) (body : fspath → exit_path * gmap string node) (w : string) :
  Tag.from_taglike tag = Ok _tag →
  concrete_version _tag v →
  w ≠ v →
  w ≠ "latest" →
  FS.lookup (Store_register fs tag body).2 [Tag.name _tag; w]
  = FS.lookup fs [Tag.name _tag; w].
Proof.
  intros Htag Hv Hwv Hwl. unfold Store_register. rewrite Htag, (path_concrete _ _ Hv).
  destruct Hv as (Hv & Hne & Hnonempty). unfold link_latest, Tag.latest_path. rewrite Hv.
  destruct (FS.exists_ fs _); [done|].
  destruct (FS.makedirs fs _) as [fs1|e] eqn:Hmk; [|done].
  apply makedirs_version in Hmk as (root & m & -> & Hm & _ & ->).
  assert (Hold : FS.lookup (Dir root) [Tag.name _tag; w] = m !! w).
  { simpl. destruct Hm as [[-> ->] | ->]; [by rewrite lookup_empty|].
    by destruct (m !! w). }
  rewrite Hold.
  destruct (body _) as [how entries]. simpl FS.set_entries.
  rewrite !lookup_insert_eq, !insert_insert_eq.
  assert (Hkeep : ∀ x, FS.lookup (Dir (<[Tag.name _tag := Dir x]> root)) [Tag.name _tag; w]
                       = x !! w).
  { intros x. simpl. rewrite lookup_insert_eq. by destruct (x !! w). }
  destruct (FS.writetext _ _ "") as [fs3|e] eqn:Hw1.
  2: { simpl snd. by rewrite Hkeep, lookup_insert_ne. }
  apply writetext_in_name in Hw1 as (root3 & m3 & [= <-] & Hn3 & _ & ->).
  rewrite lookup_insert_eq in Hn3. injection Hn3 as <-. rewrite insert_insert_eq.
  destruct (FS.writetext _ _ v) as [fs4|e] eqn:Hw2.
  2: { simpl snd. by rewrite Hkeep, !lookup_insert_ne. }
  apply writetext_in_name in Hw2 as (root4 & m4 & [= <-] & Hn4 & _ & ->).
  rewrite lookup_insert_eq in Hn4. injection Hn4 as <-. rewrite !insert_insert_eq.
  destruct how; simpl snd; by rewrite Hkeep, !lookup_insert_ne.
Qed.

(** X7.  [delete] of a versioned tag leaves every other version directory
    of the same name, with all its contents, as it was. *)
Theorem delete_leaves_other_versions (fs : node) (tag : Tag.taglike) (_tag : Tag.t)
    (v w : string) :
  Tag.from_taglike tag = Ok _tag →
  valid_name (Tag.name _tag) →
  concrete_version _tag v →
  w ≠ v →
  FS.isdir fs [Tag.name _tag; w] = true →
  FS.lookup (Store_delete fs tag).2 [Tag.name _tag; w] = FS.lookup fs [Tag.name _tag; w].
Proof.
  intros Htag Hvalid Hv Hwv Hdw. unfold Store_delete. rewrite Htag, (path_concrete _ _ Hv).
  destruct (FS.removetree fs _) as [fs1|e] eqn:Hrm; [|done].
  apply removetree_version in Hrm as (root & m & m' & -> & Hn & Hmv & ->).
  unfold FS.isdir in Hdw. simpl in Hdw. rewrite Hn in Hdw.
  destruct (m !! w) as [[|d]|] eqn:Hmw; try done.
  set (fs1 := Dir (<[Tag.name _tag := Dir (delete v m)]> root)).
  assert (H1 : FS.lookup fs1 [Tag.name _tag; w] = Some (Dir d)).
  { simpl. by rewrite lookup_insert_eq, lookup_delete_ne, Hmw. }
  assert (Hold : FS.lookup (Dir root) [Tag.name _tag; w] = Some (Dir d)).
  { simpl. by rewrite Hn, Hmw. }
  rewrite Hold.
  assert (Hd1 : FS.isdir fs1 [Tag.name _tag] = true).
  { unfold FS.isdir. simpl. by rewrite lookup_insert_eq. }
  unfold update_latest, Tag.latest_path. rewrite Hd1.
  pose proof (from_taglike_name _ Hvalid) as Hparse.
  destruct (list_by_name fs1 _ _ Hparse Hd1) as (vs & items & Hls & HF & _ & _ & Hin).
  unfold Store_list. rewrite (from_taglike_truthy _ _ Hparse), Hls.
  assert (Hw : w ∈ vs) by (apply Hin; unfold FS.isdir; by rewrite H1).
  destruct items as [|item items].
  { apply Forall2_nil_inv_r in HF as ->. by apply elem_of_nil in Hw. }
  simpl length. simpl Nat.eqb. cbv iota.
  destruct (sorted _ (item :: items)) as [|new_latest ?]; [done|].
  destruct (FS.writetext fs1 _ _) as [fs2|e] eqn:Hwr; [|done].
  apply writetext_in_name in Hwr as (root1 & m1 & [= <-] & Hn1 & Hlat & ->).
  rewrite lookup_insert_eq in Hn1. injection Hn1 as <-.
  simpl. rewrite lookup_insert_eq, lookup_insert_ne.
  - by rewrite lookup_delete_ne, Hmw.
  - intros <-. apply (Hlat d). by rewrite lookup_delete_ne.
Qed.

(** X8.  After a [delete] that returned, the tag's path is gone, and
    deleting the same tag again raises the backend's [ResourceNotFound]
    without changing anything. *)
Theorem delete_twice_raises (fs fs' : node) (tag : Tag.taglike) (_tag : Tag.t) :
  Tag.from_taglike tag = Ok _tag →
  Store_delete fs tag = (Ok tt, fs') →
  FS.exists_ fs' (Tag.path _tag) = false
  ∧ Store_delete fs' tag = (Raise (ResourceNotFound (Tag.path _tag)), fs').
Proof.
  intros Htag Hdel.
  assert (Hgone : FS.exists_ fs' (Tag.path _tag) = false).
  { unfold Store_delete in Hdel. rewrite Htag in Hdel.
    destruct (FS.removetree fs (Tag.path _tag)) as [fs1|e] eqn:Hrm; [|done].
    assert (Hfs' : fs' = (update_latest fs1 _tag).2) by by rewrite Hdel.
    clear Hdel. subst fs'.
    assert (Hwhole : FS.removetree fs [Tag.name _tag] = Ok fs1 →
                     FS.exists_ (update_latest fs1 _tag).2 [Tag.name _tag] = false).
    { intros (root & -> & ->)%removetree_name. rewrite update_latest_name_gone.
      unfold FS.exists_. simpl. by rewrite lookup_delete_eq. }
    unfold Tag.path in *. destruct (Tag.version _tag) as [v|]; [|by apply Hwhole].
    destruct (String.eqb v "latest") eqn:Hv; [by apply Hwhole|].
destruct (String.eqb v "") eqn:Hempty; [by apply Hwhole|]. clear Hwhole.
    apply String.eqb_neq in Hv.
    apply removetree_version in Hrm as (root & m & m' & -> & Hn & Hmv & ->).
    unfold FS.exists_.
    destruct (update_latest_cases (Dir (<[Tag.name _tag := Dir (delete v m)]> root)) _tag)
      as [->|[Hr|[text Hw]]].
    - simpl. by rewrite lookup_insert_eq, lookup_delete_eq.
    - apply removetree_name in Hr as (root1 & [= <-] & ->). simpl.
      by rewrite lookup_delete_eq.
    - apply writetext_in_name in Hw as (root1 & m1 & [= <-] & Hn1 & _ & ->).
      rewrite lookup_insert_eq in Hn1. injection Hn1 as <-. simpl.
      by rewrite lookup_insert_eq, lookup_insert_ne, lookup_delete_eq. }
  split; [done|]. unfold Store_delete, FS.removetree. rewrite Htag.
  rewrite removetree_missing; [done|].
  unfold FS.exists_ in Hgone. by destruct (FS.lookup fs' (Tag.path _tag)).
Qed.

End Versions.

Section Resolution.
Context {Item : Type} `{StoreItem.t Item}.

(** X9.  [delete] of a tag without version whose name has a directory
    removes that directory, so every version of the name and its pointer. *)
Theorem delete_unversioned_removes_name (fs : node) (tag : Tag.taglike) (_tag : Tag.t) :
  Tag.from_taglike tag = Ok _tag →
  Tag.version _tag = None →
  FS.isdir fs [Tag.name _tag] = true →
  ∃ fs', Store_delete fs tag = (Ok tt, fs')
         ∧ FS.exists_ fs' [Tag.name _tag] = false
         ∧ ∀ v, FS.exists_ fs' [Tag.name _tag; v] = false.
Proof.
  intros Htag Hv Hd. unfold Store_delete, Tag.path. rewrite Htag, Hv.
  unfold FS.isdir in Hd. destruct fs as [|root]; [done|]. simpl in Hd.
  unfold FS.removetree. simpl.
  destruct (root !! Tag.name _tag) as [[|m]|] eqn:Hn; try done.
  rewrite update_latest_name_gone. eexists. split; [done|].
  unfold FS.exists_. simpl. by rewrite lookup_delete_eq.
Qed.

(** X10.  After deleting the only version of a name, [get] of the bare
    name raises [NotFound] naming the item type and the name, and [list] of
    the bare name raises the backend's [ResourceNotFound]. *)
Theorem lookups_after_last_delete (fs : node) (tag : Tag.taglike) (_tag : Tag.t)
    (v : string) (unversioned : Tag.taglike) :
  Tag.from_taglike tag = Ok _tag →
  valid_name (Tag.name _tag) →
  concrete_version _tag v →
  FS.isdir fs [Tag.name _tag; v] = true →
  (∀ w, FS.isdir fs [Tag.name _tag; w] = true → w = v) →
  Tag.from_taglike unversioned = Ok (Tag.mk (Tag.name _tag) None) →
  Store_get (Store_delete fs tag).2 unversioned
  = Raise (NotFound (NoItemsWithName StoreItem.type_name (Tag.name _tag)))
  ∧ Store_list (Store_delete fs tag).2 (Some unversioned)
    = Raise (ResourceNotFound [Tag.name _tag]).
Proof.
  intros Htag Hvalid Hv Hd Hsole Hun.
  destruct (delete_sole_version fs tag _tag v Htag Hvalid Hv Hd Hsole) as (fs' & -> & Hgone).
  simpl. unfold FS.exists_ in Hgone. destruct fs' as [text|root].
  - split.
    + unfold Store_get. rewrite Hun. done.
    + unfold Store_list. rewrite (from_taglike_truthy _ _ Hun).
      unfold Store_list_tag. rewrite Hun. done.
  - simpl in Hgone. destruct (root !! Tag.name _tag) eqn:Hn; [done|]. split.
    + unfold Store_get. rewrite Hun. simpl.
      unfold resolve_latest, FS.readtext, Tag.latest_path. simpl. by rewrite Hn.
    + unfold Store_list. rewrite (from_taglike_truthy _ _ Hun).
      unfold Store_list_tag. rewrite Hun. simpl. unfold FS.scandir. simpl. by rewrite Hn.
Qed.

(** X12.  For a tag with a concrete version, [list] returns either nothing,
    the version's directory being absent, or exactly one item, and then
    [get] of the same tag returns that item. *)
Theorem list_agrees_with_get (fs : node) (tag : Tag.taglike) (_tag : Tag.t) (v : string)
    (items : list Item) :
  Tag.from_taglike tag = Ok _tag →
  concrete_version _tag v →
  Store_list fs (Some tag) = Ok items →
  items = [] ∧ FS.isdir fs (Tag.path _tag) = false
  ∨ ∃ item, items = [item] ∧ Store_get fs tag = Ok item.
Proof.
  intros Htag Hv. unfold Store_list. rewrite (from_taglike_truthy _ _ Htag).
  unfold Store_list_tag, Store_get. rewrite Htag. simpl.
  rewrite (resolve_concrete _ _ _ Hv). simpl. destruct Hv as [-> _].
  unfold get_version.
  destruct (FS.isdir fs (Tag.path _tag)) eqn:Hd.
  - rewrite (exists_isdir _ _ Hd).
    destruct (_get_item fs _tag) as [item|e]; [|done]. simpl. intros [= <-]. eauto.
  - intros [= <-]. by left.
Qed.

Lemma foldl_chars (matches : list string) (acc : list string) :
  foldl (λ vers m, (vers ++ chars m)%list) acc matches
  = (acc ++ concat (chars <$> matches))%list.
Proof.
  revert acc. induction matches as [|m matches IH]; intros acc; simpl.
  - by rewrite app_nil_r.
  - by rewrite IH, app_assoc.
Qed.

Lemma get_multiple_exactly (fs : node) (tag : Tag.taglike) (_tag : Tag.t) (msg : message) :
  Tag.from_taglike tag = Ok _tag →
  Store_get fs tag = Raise (BentoMLException msg)
  ↔ ∃ working,
      resolve_latest fs _tag = Ok working
      ∧ FS.exists_ fs (Tag.path working) = false
      ∧ (2 ≤ length (FS.glob fs (Tag.path working)))%nat
      ∧ msg = MultipleVersionsMatched (Tag.version working)
                (concat (chars <$> FS.glob fs (Tag.path working))).
Proof.
  intros Htag. unfold Store_get. rewrite Htag. simpl.
  assert (Hitem : ∀ t, _get_item fs t ≠ Raise (BentoMLException msg)).
  { intros t. unfold _get_item, FS.opendir.
    by destruct (FS.lookup fs (Tag.path t)) as [[|m]|]. }
  destruct (resolve_latest fs _tag) as [w|e] eqn:Hres; simpl.
  - unfold get_version.
    destruct (FS.exists_ fs (Tag.path w)) eqn:Hex.
    { split; [by intros ?%Hitem|]. intros (w' & [= <-] & ? & _). congruence. }
    destruct (FS.glob fs (Tag.path w)) as [|a [|b l]] eqn:Hg; simpl.
    + split; [done|]. intros (w' & [= <-] & _ & Hlen & _). rewrite Hg in Hlen.
      simpl in Hlen. lia.
    + split; [by intros ?%Hitem|]. intros (w' & [= <-] & _ & Hlen & _).
      rewrite Hg in Hlen. simpl in Hlen. lia.
    + rewrite (foldl_chars l), <- !app_assoc. split.
      * intros [= <-]. exists w. rewrite Hg. split_and!; [done..|simpl; lia|].
        by rewrite !fmap_cons, !concat_cons.
      * intros (w' & [= <-] & _ & _ & ->). rewrite Hg.
        by rewrite !fmap_cons, !concat_cons.
  - split; [|by intros (w' & [=] & _)]. intros [= ->].
    unfold resolve_latest, FS.readtext in Hres.
    destruct (latest_requested _tag); [|done].
    by destruct (FS.lookup fs (Tag.latest_path _tag)) as [[|]|].
Qed.

Lemma two_distinct_elements {A} (l : list A) :
  NoDup l → (2 ≤ length l)%nat → ∃ x y, x ≠ y ∧ x ∈ l ∧ y ∈ l.
Proof.
  intros Hnd Hlen. destruct l as [|a [|b l]]; simpl in Hlen; try lia.
  exists a, b. split_and!; [|left|right; left].
  intros ->. apply NoDup_cons in Hnd as [Hnd _]. apply Hnd. left.
Qed.

Lemma length_two_distinct {A} (l : list A) (x y : A) :
  x ≠ y → x ∈ l → y ∈ l → (2 ≤ length l)%nat.
Proof.
  intros Hne Hx Hy. destruct l as [|a [|b l]]; simpl; [|exfalso|lia].
  - by apply elem_of_nil in Hx.
  - apply list_elem_of_singleton in Hx, Hy. congruence.
Qed.

(** X13.  [get] raises the "multiple versions matched" exception, naming
    the working version (the requested one, or else the contents of the
    latest pointer), exactly when that version is not empty, has no path of
    its own, and two or more version directories of the name start with
    it. *)
Theorem get_multiple_iff (fs : node) (tag : Tag.taglike) (_tag : Tag.t) (w : string) :
  Tag.from_taglike tag = Ok _tag →
  Tag.version _tag ≠ Some "" →
  (∃ vers, Store_get fs tag
           = Raise (BentoMLException (MultipleVersionsMatched (Some w) vers)))
  ↔ (Tag.version _tag = Some w ∧ w ≠ "latest"
     ∨ (Tag.version _tag = None ∨ Tag.version _tag = Some "latest")
       ∧ FS.readtext fs [Tag.name _tag; "latest"] = Ok w)
    ∧ w ≠ ""
    ∧ FS.exists_ fs [Tag.name _tag; w] = false
    ∧ ∃ x y, x ≠ y
             ∧ String.prefix w x = true ∧ FS.isdir fs [Tag.name _tag; x] = true
             ∧ String.prefix w y = true ∧ FS.isdir fs [Tag.name _tag; y] = true.
Proof.
  intros Htag Hnonempty. split.
  - intros [vers Hget].
    apply (get_multiple_exactly fs tag _tag _ Htag) in Hget
      as (working & Hres & Hex & Hlen & Hmsg).
    destruct (working_version fs tag _ _ Hres) as (w' & -> & Hw & _).
    simpl in Hmsg. injection Hmsg as <- _.
    assert (Hproper : w ≠ "latest" ∧ w ≠ "").
    { destruct Hw as [[Hv Hne]|[_ Hread]]; [split; [done|congruence]|].
      apply readtext_in_existing in Hread.
      split; intros ->; rewrite path_of_reserved in Hex by auto; congruence. }
    destruct Hproper as [Hne Hne']. rewrite path_of_version in Hex, Hlen by done.
    split_and!; try done.
    destruct (two_distinct_elements _ (NoDup_glob fs _) Hlen) as (x & y & Hxy & Hx & Hy).
    apply (elem_of_glob fs [Tag.name _tag] w) in Hx as [? ?], Hy as [? ?].
    exists x, y. by split_and!.
  - intros (Hw & Hne' & Hex & x & y & Hxy & Hpx & Hdx & Hpy & Hdy).
    assert (Hne : w ≠ "latest").
    { destruct Hw as [[_ Hne]|[_ Hread]]; [done|]. intros ->.
      unfold FS.readtext, FS.exists_ in *.
      by destruct (FS.lookup fs [Tag.name _tag; "latest"]). }
    assert (Hres : resolve_latest fs _tag = Ok (Tag.mk (Tag.name _tag) (Some w))).
    { apply resolve_latest_Ok. destruct Hw as [[Hv _]|[Hlr Hread]].
      - left. split; [apply latest_requested_false; by eauto|].
        destruct _tag as [n v]. simpl in *. by subst v.
      - right. split; [by apply latest_requested_true|]. by eauto. }
    eexists. apply (get_multiple_exactly fs tag _tag _ Htag).
    exists (Tag.mk (Tag.name _tag) (Some w)). rewrite path_of_version by done.
    split_and!; [done..| |reflexivity].
    apply (length_two_distinct _ x y Hxy);
      by apply (elem_of_glob fs [Tag.name _tag] w).
Qed.

(** X15.  [register] of a tag without version never completes normally: it
    always ends by raising, whatever the block did. *)
Theorem register_unversioned_never_completes (fs : node) (tag : Tag.taglike) (_tag : Tag.t)
    (body : fspath → exit_path * gmap string node) :
  Tag.from_taglike tag = Ok _tag →
  Tag.version _tag = None →
  ∃ e, (Store_register fs tag body).1 = Raise e.
Proof.
  intros Htag Hv. unfold Store_register. rewrite Htag.
  destruct (FS.exists_ fs _); [by eauto|].
  destruct (FS.makedirs fs _) as [fs1|e]; [|by eauto].
  destruct (body _) as [how entries]. unfold link_latest. rewrite Hv.
  destruct (FS.writetext _ _ ""); simpl; eauto.
Qed.

End Resolution.

Lemma prefix_refl (s : string) : String.prefix s s = true.
Proof.
  induction s as [|c s IH]; [done|]. simpl.
  destruct (ascii_dec c c); [done|congruence].
Qed.

Section Returned.
Context {Item : Type} `{StoreItem.t Item}.

(** "[tag] (must equal the tag used to construct it)" *)
Hypothesis tag_from_fs : ∀ (t : Tag.t) (d : node), StoreItem.tag (StoreItem.from_fs t d) = t.

Lemma get_item_tag (fs : node) (t : Tag.t) (item : Item) :
  _get_item fs t = Ok item → StoreItem.tag item = t ∧ FS.isdir fs (Tag.path t) = true.
Proof.
  unfold _get_item, FS.opendir, FS.isdir.
  destruct (FS.lookup fs _) as [[|m]|]; try done. simpl.
  intros [= <-]. by rewrite tag_from_fs.
Qed.

Lemma resolve_latest_name (fs : node) (_tag working : Tag.t) :
  resolve_latest fs _tag = Ok working → Tag.name working = Tag.name _tag.
Proof.
  unfold resolve_latest. destruct (latest_requested _tag); [|by intros [= <-]].
  destruct (FS.readtext fs _) as [text|[]]; try done. by intros [= <-].
Qed.

(** X11.  For an item type that keeps the tag it is built with, an item
    returned by [get] carries the requested name; and when a concrete
    version was requested, its version starts with the requested one and is
    a version directory of that name. *)
Theorem get_returns_requested (fs : node) (tag : Tag.taglike) (_tag : Tag.t) (item : Item) :
  Tag.from_taglike tag = Ok _tag →
  Store_get fs tag = Ok item →
  Tag.name (StoreItem.tag item) = Tag.name _tag
  ∧ ∀ v, concrete_version _tag v →
         ∃ w, Tag.version (StoreItem.tag item) = Some w
              ∧ String.prefix v w = true
              ∧ FS.isdir fs [Tag.name _tag; w] = true.
Proof.
  intros Htag. unfold Store_get. rewrite Htag. simpl.
  destruct (resolve_latest fs _tag) as [working|e] eqn:Hres; [|done]. simpl.
  pose proof (resolve_latest_name _ _ _ Hres) as Hname.
  unfold get_version.
  destruct (FS.exists_ fs (Tag.path working)) eqn:Hex.
  - intros [Htagged Hd]%get_item_tag. split; [by rewrite Htagged|].
    intros v Hv. rewrite (resolve_concrete _ _ _ Hv) in Hres. injection Hres as <-.
    rewrite (path_concrete _ _ Hv) in Hd. destruct Hv as [Hv _].
    exists v. rewrite Htagged. split_and!; [done|apply prefix_refl|done].
  - destruct (FS.glob fs (Tag.path working)) as [|m [|m' l]] eqn:Hg; simpl; try done.
    intros [Htagged Hd]%get_item_tag. split; [by rewrite Htagged|].
    intros v Hv. rewrite (resolve_concrete _ _ _ Hv) in Hres. injection Hres as <-.
    rewrite (path_concrete _ _ Hv) in Hg.
    assert (Hm : m ∈ FS.glob fs ([Tag.name _tag] ++ [v])) by (simpl; rewrite Hg; left).
    apply elem_of_glob in Hm as [Hp Hdm].
    exists m. rewrite Htagged. by split_and!.
Qed.

End Returned.

Section Latest.
Context {Item : Type} `{StoreItem.t Item}.

Lemma get_version_item (fs : node) (a b : Tag.taglike) (working : Tag.t) (item : Item) :
  get_version fs a working = Ok item → get_version fs b working = Ok item.
Proof.
  unfold get_version. destruct (FS.exists_ fs _); [done|].
  by destruct (FS.glob fs _) as [|m [|m' l]].
Qed.

(** X14.  [get] of [name:latest] returns an item exactly when [get] of the
    bare name does, and then the same one. *)
Theorem get_latest_is_get_unversioned (fs : node) (n : string)
    (unversioned latest : Tag.taglike) (item : Item) :
  Tag.from_taglike unversioned = Ok (Tag.mk n None) →
  Tag.from_taglike latest = Ok (Tag.mk n (Some "latest")) →
  Store_get fs unversioned = Ok item ↔ Store_get fs latest = Ok item.
Proof.
  intros Hu Hl. unfold Store_get. rewrite Hu, Hl. simpl.
  unfold resolve_latest, latest_requested, Tag.latest_path. simpl.
  destruct (FS.readtext fs [n; "latest"]) as [text|[]]; simpl; try done.
  split; apply get_version_item.
Qed.

End Latest.

(** *** The further properties at concrete stores *)

Lemma get_after_register_witness :
  Tag.from_taglike (Tag.Str "demo:2") = Ok (Tag.mk "demo" (Some "2"))
  ∧ concrete_version (Tag.mk "demo" (Some "2")) "2"
  ∧ store_layout Bento.one_version
  ∧ FS.exists_ Bento.one_version ["demo"; "2"] = false
  ∧ Tag.from_taglike (Tag.Str "demo") = Ok (Tag.mk "demo" None)
  ∧ Store_get (Store_register Bento.one_version (Tag.Str "demo:2")
                 (Bento.populate "200" (CallerRaised "disk full"))).2 (Tag.Str "demo")
    = Ok (Bento.mk (Tag.mk "demo" (Some "2")) 200).
Proof.
  assert (Hv : concrete_version (Tag.mk "demo" (Some "2")) "2")
    by (split_and!; [reflexivity | discriminate | discriminate]).
  assert (Hlay : store_layout Bento.one_version)
    by (apply (bool_decide_unpack _); vm_compute; exact I).
  split_and!; [reflexivity | done | done | reflexivity | reflexivity |].
  exact (proj2 (get_after_register (Item := Bento.t) Bento.one_version (Tag.Str "demo:2")
                  (Tag.mk "demo" (Some "2")) "2"
                  (Bento.populate "200" (CallerRaised "disk full")) (Tag.Str "demo")
                  eq_refl Hv Hlay eq_refl eq_refl)).
Defined.

Lemma register_twice_is_rejected_witness :
  Tag.from_taglike (Tag.Str "demo:1") = Ok (Tag.mk "demo" (Some "1"))
  ∧ concrete_version (Tag.mk "demo" (Some "1")) "1"
  ∧ store_layout Bento.empty_store
  ∧ FS.exists_ Bento.empty_store ["demo"; "1"] = false
  ∧ Store_register Bento.one_version (Tag.Str "demo:1") (Bento.populate "300" NormalCompletion)
    = (Raise (BentoMLException (ItemAlreadyExists "demo:1")), Bento.one_version).
Proof.
  assert (Hv : concrete_version (Tag.mk "demo" (Some "1")) "1")
    by (split_and!; [reflexivity | discriminate | discriminate]).
  assert (Hlay : store_layout Bento.empty_store)
    by (apply (bool_decide_unpack _); vm_compute; exact I).
  split_and!; [reflexivity | done | done | reflexivity |].
  exact (register_twice_is_rejected Bento.empty_store (Tag.Str "demo:1")
           (Tag.mk "demo" (Some "1")) "1" (Bento.populate "100" NormalCompletion)
           (Bento.populate "300" NormalCompletion) eq_refl Hv Hlay eq_refl).
Defined.

Lemma register_then_delete_restores_witness :
  Tag.from_taglike (Tag.Str "other:1") = Ok (Tag.mk "other" (Some "1"))
  ∧ valid_name "other"
  ∧ concrete_version (Tag.mk "other" (Some "1")) "1"
  ∧ store_layout Bento.one_version
  ∧ FS.exists_ Bento.one_version ["other"] = false
  ∧ Store_delete (Item := Bento.t) Bento.two_names (Tag.Str "other:1")
    = (Ok tt, Bento.one_version).
Proof.
  assert (Hname : valid_name "other") by (split; [discriminate | reflexivity]).
  assert (Hv : concrete_version (Tag.mk "other" (Some "1")) "1")
    by (split_and!; [reflexivity | discriminate | discriminate]).
  assert (Hlay : store_layout Bento.one_version)
    by (apply (bool_decide_unpack _); vm_compute; exact I).
  split_and!; [reflexivity | done | done | done | reflexivity |].
  exact (register_then_delete_restores (Item := Bento.t) Bento.one_version (Tag.Str "other:1")
           (Tag.mk "other" (Some "1")) "1" (Bento.populate "50" NormalCompletion)
           eq_refl Hname Hv Hlay eq_refl).
Defined.

Lemma delete_leaves_other_names_witness :
  Tag.from_taglike (Tag.Str "other:1") = Ok (Tag.mk "other" (Some "1"))
  ∧ "demo" ≠ "other"
  ∧ FS.lookup (Bento.delete Bento.two_names "other:1") ["demo"]
    = FS.lookup Bento.two_names ["demo"].
Proof.
  assert (Hne : "demo" ≠ "other") by discriminate.
  split_and!; [reflexivity | done |].
  exact (delete_leaves_other_names (Item := Bento.t) Bento.two_names (Tag.Str "other:1")
           (Tag.mk "other" (Some "1")) "demo" eq_refl Hne).
Defined.

Lemma register_leaves_other_names_witness :
  Tag.from_taglike (Tag.Str "other:1") = Ok (Tag.mk "other" (Some "1"))
  ∧ "demo" ≠ "other"
  ∧ FS.lookup Bento.two_names ["demo"] = FS.lookup Bento.one_version ["demo"].
Proof.
  assert (Hne : "demo" ≠ "other") by discriminate.
  split_and!; [reflexivity | done |].
  exact (register_leaves_other_names Bento.one_version (Tag.Str "other:1")
           (Tag.mk "other" (Some "1")) (Bento.populate "50" NormalCompletion) "demo"
           eq_refl Hne).
Defined.

Lemma register_leaves_other_versions_witness :
  Tag.from_taglike (Tag.Str "demo:2") = Ok (Tag.mk "demo" (Some "2"))
  ∧ concrete_version (Tag.mk "demo" (Some "2")) "2"
  ∧ "1" ≠ "2"
  ∧ "1" ≠ "latest"
  ∧ FS.lookup Bento.two_versions ["demo"; "1"] = FS.lookup Bento.one_version ["demo"; "1"].
Proof.
  assert (Hv : concrete_version (Tag.mk "demo" (Some "2")) "2")
    by (split_and!; [reflexivity | discriminate | discriminate]).
  assert (H12 : "1" ≠ "2") by discriminate.
  assert (H1l : "1" ≠ "latest") by discriminate.
  split_and!; [reflexivity | done | done | done |].
  exact (register_leaves_other_versions Bento.one_version (Tag.Str "demo:2")
           (Tag.mk "demo" (Some "2")) "2" (Bento.populate "200" NormalCompletion) "1"
           eq_refl Hv H12 H1l).
Defined.

Lemma delete_leaves_other_versions_witness :
  Tag.from_taglike (Tag.Str "demo:2") = Ok (Tag.mk "demo" (Some "2"))
  ∧ valid_name "demo"
  ∧ concrete_version (Tag.mk "demo" (Some "2")) "2"
  ∧ "1" ≠ "2"
  ∧ FS.isdir Bento.two_versions ["demo"; "1"] = true
  ∧ FS.lookup (Bento.delete Bento.two_versions "demo:2") ["demo"; "1"]
    = FS.lookup Bento.two_versions ["demo"; "1"].
Proof.
  assert (Hname : valid_name "demo") by (split; [discriminate | reflexivity]).
  assert (Hv : concrete_version (Tag.mk "demo" (Some "2")) "2")
    by (split_and!; [reflexivity | discriminate | discriminate]).
  assert (H12 : "1" ≠ "2") by discriminate.
  split_and!; [reflexivity | done | done | done | reflexivity |].
  exact (delete_leaves_other_versions (Item := Bento.t) Bento.two_versions (Tag.Str "demo:2")
           (Tag.mk "demo" (Some "2")) "2" "1" eq_refl Hname Hv H12 eq_refl).
Defined.

Lemma delete_twice_raises_witness :
  Tag.from_taglike (Tag.Str "demo:2") = Ok (Tag.mk "demo" (Some "2"))
  ∧ Store_delete (Item := Bento.t) Bento.two_versions (Tag.Str "demo:2")
    = (Ok tt, Bento.delete Bento.two_versions "demo:2")
  ∧ Store_delete (Item := Bento.t) (Bento.delete Bento.two_versions "demo:2") (Tag.Str "demo:2")
    = (Raise (ResourceNotFound ["demo"; "2"]), Bento.delete Bento.two_versions "demo:2").
Proof.
  assert (Hdel : Store_delete (Item := Bento.t) Bento.two_versions (Tag.Str "demo:2")
                 = (Ok tt, Bento.delete Bento.two_versions "demo:2"))
    by (vm_compute; reflexivity).
  split_and!; [reflexivity | done |].
  exact (proj2 (delete_twice_raises (Item := Bento.t) Bento.two_versions
                  (Bento.delete Bento.two_versions "demo:2") (Tag.Str "demo:2")
                  (Tag.mk "demo" (Some "2")) eq_refl Hdel)).
Defined.

Lemma delete_unversioned_removes_name_witness :
  Tag.from_taglike (Tag.Str "demo") = Ok (Tag.mk "demo" None)
  ∧ FS.isdir Bento.two_versions ["demo"] = true
  ∧ ∃ fs', Store_delete (Item := Bento.t) Bento.two_versions (Tag.Str "demo") = (Ok tt, fs')
           ∧ FS.exists_ fs' ["demo"] = false
           ∧ ∀ v, FS.exists_ fs' ["demo"; v] = false.
Proof.
  split_and!; [reflexivity | reflexivity |].
  exact (delete_unversioned_removes_name (Item := Bento.t) Bento.two_versions (Tag.Str "demo")
           (Tag.mk "demo" None) eq_refl eq_refl eq_refl).
Defined.

Lemma lookups_after_last_delete_witness :
  Tag.from_taglike (Tag.Str "demo:1") = Ok (Tag.mk "demo" (Some "1"))
  ∧ valid_name "demo"
  ∧ concrete_version (Tag.mk "demo" (Some "1")) "1"
  ∧ FS.isdir Bento.one_version ["demo"; "1"] = true
  ∧ Store_get (Item := Bento.t) (Bento.delete Bento.one_version "demo:1") (Tag.Str "demo")
    = Raise (NotFound (NoItemsWithName "Bento" "demo")).
Proof.
  assert (Hname : valid_name "demo") by (split; [discriminate | reflexivity]).
  assert (Hv : concrete_version (Tag.mk "demo" (Some "1")) "1")
    by (split_and!; [reflexivity | discriminate | discriminate]).
  split_and!; [reflexivity | done | done | reflexivity |].
  exact (proj1 (lookups_after_last_delete (Item := Bento.t) Bento.one_version
                  (Tag.Str "demo:1") (Tag.mk "demo" (Some "1")) "1" (Tag.Str "demo")
                  eq_refl Hname Hv eq_refl one_version_versions eq_refl)).
Defined.

Lemma get_returns_requested_witness :
  Tag.from_taglike (Tag.Str "demo:1") = Ok (Tag.mk "demo" (Some "1"))
  ∧ Store_get Bento.only_ten (Tag.Str "demo:1") = Ok (Bento.mk (Tag.mk "demo" (Some "10")) 100)
  ∧ Tag.name (Bento.tag (Bento.mk (Tag.mk "demo" (Some "10")) 100)) = "demo".
Proof.
  split_and!; [reflexivity | vm_compute; reflexivity |].
  exact (proj1 (get_returns_requested (Item := Bento.t) (λ t d, eq_refl) Bento.only_ten
                  (Tag.Str "demo:1") (Tag.mk "demo" (Some "1"))
                  (Bento.mk (Tag.mk "demo" (Some "10")) 100) eq_refl eq_refl)).
Defined.

Lemma list_agrees_with_get_witness :
  Tag.from_taglike (Tag.Str "demo:1") = Ok (Tag.mk "demo" (Some "1"))
  ∧ concrete_version (Tag.mk "demo" (Some "1")) "1"
  ∧ Store_list Bento.one_version (Some (Tag.Str "demo:1"))
    = Ok [Bento.mk (Tag.mk "demo" (Some "1")) 100]
  ∧ ([Bento.mk (Tag.mk "demo" (Some "1")) 100] = []
       ∧ FS.isdir Bento.one_version ["demo"; "1"] = false
     ∨ ∃ item, [Bento.mk (Tag.mk "demo" (Some "1")) 100] = [item]
               ∧ Store_get Bento.one_version (Tag.Str "demo:1") = Ok item).
Proof.
  assert (Hv : concrete_version (Tag.mk "demo" (Some "1")) "1")
    by (split_and!; [reflexivity | discriminate | discriminate]).
  split_and!; [reflexivity | done | vm_compute; reflexivity |].
  exact (list_agrees_with_get (Item := Bento.t) Bento.one_version (Tag.Str "demo:1")
           (Tag.mk "demo" (Some "1")) "1" [Bento.mk (Tag.mk "demo" (Some "1")) 100]
           eq_refl Hv eq_refl).
Defined.

Lemma get_multiple_iff_witness :
  Tag.from_taglike (Tag.Str "demo:1") = Ok (Tag.mk "demo" (Some "1"))
  ∧ Some "1" ≠ Some ""
  ∧ ∃ vers, Store_get (Item := Bento.t) Bento.shared_prefix (Tag.Str "demo:1")
            = Raise (BentoMLException (MultipleVersionsMatched (Some "1") vers)).
Proof.
  assert (Hne : Some "1" ≠ Some "") by discriminate.
  split_and!; [reflexivity | done |].
  apply (get_multiple_iff (Item := Bento.t) Bento.shared_prefix (Tag.Str "demo:1")
           (Tag.mk "demo" (Some "1")) "1" eq_refl Hne).
  split_and!; [left; split; [reflexivity | discriminate] | discriminate | reflexivity |].
  exists "1a", "1b". split_and!; [discriminate | reflexivity..].
Defined.

Lemma get_latest_is_get_unversioned_witness :
  Tag.from_taglike (Tag.Str "demo") = Ok (Tag.mk "demo" None)
  ∧ Tag.from_taglike (Tag.Str "demo:latest") = Ok (Tag.mk "demo" (Some "latest"))
  ∧ Store_get Bento.two_versions (Tag.Str "demo:latest")
    = Ok (Bento.mk (Tag.mk "demo" (Some "2")) 200).
Proof.
  split_and!; [reflexivity | reflexivity |].
  apply (get_latest_is_get_unversioned (Item := Bento.t) Bento.two_versions "demo"
           (Tag.Str "demo") (Tag.Str "demo:latest") _ eq_refl eq_refl).
  vm_compute. reflexivity.
Defined.

Lemma register_unversioned_never_completes_witness :
  Tag.from_taglike (Tag.Str "demo") = Ok (Tag.mk "demo" None)
  ∧ ∃ e, (Store_register Bento.empty_store (Tag.Str "demo") Bento.leave_empty).1 = Raise e.
Proof.
  split; [reflexivity|].
  exact (register_unversioned_never_completes Bento.empty_store (Tag.Str "demo")
           (Tag.mk "demo" None) Bento.leave_empty eq_refl eq_refl).
Defined.

Lemma register_preserves_layout_witness :
  Tag.from_taglike (Tag.Str "demo:2") = Ok (Tag.mk "demo" (Some "2"))
  ∧ valid_name "demo"
  ∧ concrete_version (Tag.mk "demo" (Some "2")) "2"
  ∧ store_layout Bento.one_version
  ∧ store_layout Bento.two_versions.
Proof.
  assert (Hname : valid_name "demo") by (split; [discriminate | reflexivity]).
  assert (Hv : concrete_version (Tag.mk "demo" (Some "2")) "2")
    by (split_and!; [reflexivity | discriminate | discriminate]).
  assert (Hlay : store_layout Bento.one_version)
    by (apply (bool_decide_unpack _); vm_compute; exact I).
  split_and!; [reflexivity | done | done | done |].
  exact (register_preserves_layout Bento.one_version (Tag.Str "demo:2")
           (Tag.mk "demo" (Some "2")) "2" (Bento.populate "200" NormalCompletion)
           eq_refl Hname Hv Hlay).
Defined.

Lemma delete_preserves_layout_witness :
  Tag.from_taglike (Tag.Str "demo:2") = Ok (Tag.mk "demo" (Some "2"))
  ∧ valid_name "demo"
  ∧ store_layout Bento.two_versions
  ∧ store_layout (Bento.delete Bento.two_versions "demo:2").
Proof.
  assert (Hname : valid_name "demo") by (split; [discriminate | reflexivity]).
  assert (Hlay : store_layout Bento.two_versions)
    by (apply (bool_decide_unpack _); vm_compute; exact I).
  split_and!; [reflexivity | done | done |].
  exact (delete_preserves_layout (Item := Bento.t) Bento.two_versions (Tag.Str "demo:2")
           (Tag.mk "demo" (Some "2")) eq_refl Hname Hlay).
Defined.
